(** * spotify_india_analysis.py: a shallow embedding and its properties

    The script is sequential glue around a remote music API: search an
    artist, fetch the top tracks, fetch audio features in batches of 100,
    join the two tables and plot.  The embedding keeps the Python shape:

    - JSON data returned by the client is a [value] (None, bool, int,
      float, str, list, dict with insertion order);
    - every call on the client handle [sp] is a transition of a service
      state machine that either returns a value or raises;
    - a function of the script is a computation [M A]: from a service
      state it gives an outcome (a returned value or a raised exception),
      the next service state and the events it emitted, in order
      (requests with their outcomes, sleeps, prints, the plot). *)

From Stdlib Require Import List String Ascii ZArith QArith Bool Arith Lia.
From Stdlib Require Import DecimalString.
Import ListNotations.
Local Close Scope Q_scope.
Local Open Scope string_scope.
Local Open Scope list_scope.

Set Implicit Arguments.
Set Warnings "-register-all".

(** ** Python values *)

Inductive value : Type :=
| VNone
| VBool (b : bool)
| VInt (z : Z)
| VFloat (q : Q)
| VStr (s : string)
| VList (l : list value)
| VDict (d : list (string * value)).

(** A dict keeps its keys in insertion order; a key occurs once. *)
Definition dict := list (string * value).

Definition Q_eqb (p q : Q) : bool :=
  (Qnum p =? Qnum q)%Z && (Qden p =? Qden q)%positive.

Fixpoint value_eqb (v w : value) {struct v} : bool :=
  match v, w with
  | VNone, VNone => true
  | VBool a, VBool b => Bool.eqb a b
  | VInt a, VInt b => (a =? b)%Z
  | VFloat a, VFloat b => Q_eqb a b
  | VStr a, VStr b => String.eqb a b
  | VList l, VList m =>
      (fix list_eqb (l m : list value) {struct l} : bool :=
         match l, m with
         | [], [] => true
         | x :: l', y :: m' => value_eqb x y && list_eqb l' m'
         | _, _ => false
         end) l m
  | VDict d, VDict e =>
      (fix dict_eqb (d e : dict) {struct d} : bool :=
         match d, e with
         | [], [] => true
         | (k, x) :: d', (k', y) :: e' =>
             String.eqb k k' && value_eqb x y && dict_eqb d' e'
         | _, _ => false
         end) d e
  | _, _ => false
  end.

(** [bool(v)]: the falsy values are None, False, 0, 0.0, the empty string,
    the empty list and the empty dict. *)
Definition truthy (v : value) : bool :=
  match v with
  | VNone => false
  | VBool b => b
  | VInt z => negb (z =? 0)%Z
  | VFloat q => negb (Qnum q =? 0)%Z
  | VStr s => negb (String.eqb s "")
  | VList l => match l with [] => false | _ => true end
  | VDict d => match d with [] => false | _ => true end
  end.

(** ** Exceptions and outcomes *)

Inductive exn : Type :=
| SpotifyException (http_status : Z) (msg : string)
| KeyError (key : string)
| IndexError
| TypeError
| AttributeError
| ValueError
| OtherError (name : string)
| SystemExit (msg : string).

(** [except spotipy.SpotifyException] catches that class only. *)
Definition is_SpotifyException (e : exn) : bool :=
  match e with
  | SpotifyException _ _ => true
  | _ => false
  end.

Inductive outcome (A : Type) : Type :=
| Returns (a : A)
| Raises (e : exn).
Arguments Raises {A} e.

(** ** Python primitives on values *)

Fixpoint dict_lookup (k : string) (d : dict) : option value :=
  match d with
  | [] => None
  | (k', v) :: d' => if String.eqb k k' then Some v else dict_lookup k d'
  end.

Definition dict_keys (d : dict) : list string := map fst d.

(** [v.get(k, dflt)]: only a dict has the method. *)
Definition py_get (v : value) (k : string) (dflt : value) : outcome value :=
  match v with
  | VDict d =>
      match dict_lookup k d with
      | Some x => Returns x
      | None => Returns dflt
      end
  | _ => Raises AttributeError
  end.

(** [v[k]] with a string key. *)
Definition py_getitem (v : value) (k : string) : outcome value :=
  match v with
  | VDict d =>
      match dict_lookup k d with
      | Some x => Returns x
      | None => Raises (KeyError k)
      end
  | _ => Raises TypeError
  end.

Definition chars (s : string) : list value :=
  map (fun c => VStr (String c EmptyString)) (list_ascii_of_string s).

(** [v[0]]. *)
Definition py_first (v : value) : outcome value :=
  match v with
  | VList (x :: _) => Returns x
  | VList [] => Raises IndexError
  | VStr (String c _) => Returns (VStr (String c EmptyString))
  | VStr EmptyString => Raises IndexError
  | VDict _ => Raises (KeyError "0")
  | _ => Raises TypeError
  end.

(** The elements [for x in v] visits: of a list its items, of a str its
    characters, of a dict its keys; nothing else here is iterable. *)
Definition py_iter (v : value) : outcome (list value) :=
  match v with
  | VList l => Returns l
  | VStr s => Returns (chars s)
  | VDict d => Returns (map VStr (dict_keys d))
  | _ => Raises TypeError
  end.

(** [sep.join(parts)]: every part must be a str. *)
Fixpoint py_join (sep : string) (parts : list value) : outcome string :=
  match parts with
  | [] => Returns ""
  | VStr s :: rest =>
      match rest with
      | [] => Returns s
      | _ =>
          match py_join sep rest with
          | Returns r => Returns (s ++ sep ++ r)%string
          | Raises e => Raises e
          end
      end
  | _ :: _ => Raises TypeError
  end.

(** ** pandas: the part of DataFrame the script uses

    A frame is its column labels and its rows, each row listing one cell
    per column.  A missing cell (NaN) is [VNone].  A frame built from
    records holds the values of the records as they are; the float that
    pandas stores for an integer, in a column that holds a null or a
    float too, is [as_float] of the cell. *)

Record DataFrame : Type := mkDataFrame {
  columns : list string;
  rows : list (list value)
}.

(** The float a number is stored as in a float column. *)
Definition as_float (v : value) : value :=
  match v with
  | VInt z => VFloat (inject_Z z)
  | _ => v
  end.

Definition mem_string (k : string) (ks : list string) : bool :=
  existsb (String.eqb k) ks.

(** Labels in order of first appearance. *)
Definition add_new_keys (seen ks : list string) : list string :=
  fold_left (fun acc k => if mem_string k acc then acc else acc ++ [k]) ks seen.

Definition cell (d : dict) (c : string) : value :=
  match dict_lookup c d with
  | Some v => v
  | None => VNone
  end.

Definition frame_of_dicts (ds : list dict) : DataFrame :=
  let cols := fold_left add_new_keys (map dict_keys ds) [] in
  {| columns := cols; rows := map (fun d => map (cell d) cols) ds |}.

Fixpoint as_dicts (vs : list value) : option (list dict) :=
  match vs with
  | [] => Some []
  | VDict d :: rest =>
      match as_dicts rest with
      | Some ds => Some (d :: ds)
      | None => None
      end
  | _ :: _ => None
  end.

(** A value that is neither a list nor a dict. *)
Definition is_scalar (v : value) : bool :=
  match v with
  | VList _ | VDict _ => false
  | _ => true
  end.

(** [pd.DataFrame(records)].  A list of dicts gives one column per key;
    the empty list gives the frame with no column and no row; a list of
    scalars (of nulls, say) gives the single column 0.  For a list that
    mixes dicts with other values, or holds lists, what pandas does
    depends on the order of the records; the model raises there. *)
Definition pd_DataFrame (records : list value) : outcome DataFrame :=
  match as_dicts records with
  | Some ds => Returns (frame_of_dicts ds)
  | None =>
      if forallb is_scalar records
      then Returns {| columns := ["0"]; rows := map (fun v => [v]) records |}
      else Raises AttributeError
  end.

Fixpoint column_index (c : string) (cols : list string) : option nat :=
  match cols with
  | [] => None
  | c' :: rest =>
      if String.eqb c c' then Some 0
      else match column_index c rest with
           | Some i => Some (S i)
           | None => None
           end
  end.

(** A label the two frames share gets the suffix of its side. *)
Definition with_suffix (other : list string) (sfx : string) (c : string) : string :=
  if mem_string c other then (c ++ sfx)%string else c.

Definition key_at (i : nat) (row : list value) : value := nth i row VNone.

Definition matches_of (key : value) (j : nat) (right_rows : list (list value))
  : list (list value) :=
  filter (fun r => value_eqb key (key_at j r)) right_rows.

Definition is_str (v : value) : bool :=
  match v with
  | VStr _ => true
  | _ => false
  end.

Definition is_num (v : value) : bool :=
  match v with
  | VInt _ | VFloat _ => true
  | _ => false
  end.

Definition is_str_or_null (v : value) : bool :=
  match v with
  | VStr _ | VNone => true
  | _ => false
  end.

Definition is_num_or_null (v : value) : bool :=
  match v with
  | VInt _ | VFloat _ | VNone => true
  | _ => false
  end.

(** A key column of strings (object dtype), and one of numbers (int64 or
    float64); nulls may occur in both. *)
Definition string_keys (cells : list value) : bool :=
  forallb is_str_or_null cells && existsb is_str cells.

Definition number_keys (cells : list value) : bool :=
  forallb is_num_or_null cells && existsb is_num cells.

(** pandas refuses to merge a key column of strings with one of numbers
    (ValueError: You are trying to merge on object and int64 columns). *)
Definition keys_incompatible (lkeys rkeys : list value) : bool :=
  (string_keys lkeys && number_keys rkeys)
  || (number_keys lkeys && string_keys rkeys).

(** A suffix has made a label equal to an earlier label of its frame,
    where the labels before the suffixes were different. *)
Fixpoint suffix_clash (seen_orig seen : list string) (orig labels : list string)
  : bool :=
  match orig, labels with
  | o :: orig', l :: labels' =>
      (mem_string l seen && negb (mem_string o seen_orig))
      || suffix_clash (o :: seen_orig) (l :: seen) orig' labels'
  | _, _ => false
  end.

Definition MergeError : exn := OtherError "pandas.errors.MergeError".

Definition is_int (v : value) : bool :=
  match v with
  | VInt _ => true
  | _ => false
  end.

(** pandas stores a column as float64 when it holds numbers only, nulls
    apart, and a float or a null is among its cells, or nulls are added
    to it. *)
Definition float_column (cells : list value) (nulls_added : bool) : bool :=
  forallb is_num_or_null cells && existsb is_num cells
  && (nulls_added || negb (forallb is_int cells)).

(** The right-hand row as the merged frame stores it: the integers of a
    float column as floats. *)
Fixpoint stored (flags : list bool) (row : list value) : list value :=
  match row with
  | [] => []
  | v :: row' =>
      match flags with
      | f :: flags' => (if f then as_float v else v) :: stored flags' row'
      | [] => v :: stored [] row'
      end
  end.

(** Some left row has no match, so the right-hand columns get nulls. *)
Definition some_unmatched (i j : nat) (left right : DataFrame) : bool :=
  existsb (fun lrow => match matches_of (key_at i lrow) j (rows right) with
                       | [] => true
                       | _ => false
                       end) (rows left).

Definition float_flags (right : DataFrame) (nulls_added : bool) : list bool :=
  map (fun k => float_column (map (key_at k) (rows right)) nulls_added)
      (seq 0 (List.length (columns right))).

(** One left row of a left outer join: a copy per matching right row, in
    the right frame's order, or the row once with null right cells. *)
Definition join_row (i j : nat) (right : DataFrame) (flags : list bool)
    (lrow : list value) : list (list value) :=
  match matches_of (key_at i lrow) j (rows right) with
  | [] => [lrow ++ repeat VNone (List.length (columns right))]
  | ms => map (fun r => lrow ++ stored flags r) ms
  end.

(** [left.merge(right, left_on=.., right_on=.., how='left')].  The key
    of the right frame is looked up first, then the key of the left one
    (KeyError); then the two key columns are checked (ValueError for
    strings against numbers); then the labels are suffixed (MergeError
    when a suffix duplicates a label).  Keys are compared as values, a
    null key matching a null key.  The left-hand cells are those of the
    left frame; the right-hand cells are in their stored form. *)
Definition merge_left (left right : DataFrame) (left_on right_on : string)
  : outcome DataFrame :=
  match column_index right_on (columns right) with
  | None => Raises (KeyError right_on)
  | Some j =>
      match column_index left_on (columns left) with
      | None => Raises (KeyError left_on)
      | Some i =>
          if keys_incompatible (map (key_at i) (rows left))
                               (map (key_at j) (rows right))
          then Raises ValueError
          else
            let llabels := map (with_suffix (columns right) "_x") (columns left) in
            let rlabels := map (with_suffix (columns left) "_y") (columns right) in
            if suffix_clash [] [] (columns left) llabels
               || suffix_clash [] [] (columns right) rlabels
            then Raises MergeError
            else
              let flags := float_flags right (some_unmatched i j left right) in
              Returns
                {| columns := llabels ++ rlabels;
                   rows := flat_map (join_row i j right flags) (rows left) |}
      end
  end.

Definition head (df : DataFrame) : DataFrame :=
  {| columns := columns df; rows := firstn 5 (rows df) |}.

(** ** Events and computations *)

Inductive printable : Type :=
| PStr (s : string)
| PVal (v : value)
| PExn (e : exn)
| PFrame (df : DataFrame).

(** What a run does to the outside, in order.  A request is recorded with
    its outcome.  [Print] lists the arguments of one [print] call, an
    f-string being listed by its parts. *)
Inductive event : Type :=
| ApiSearch (q : string) (r : outcome value)
| ApiTopTracks (artist_id : value) (market : string) (r : outcome value)
| ApiPlaylistItems (playlist_id : string) (r : outcome value)
| ApiNext (page : value) (r : outcome value)
| ApiAudioFeatures (batch : list value) (r : outcome value)
| Sleep (ms : Z)
| Print (args : list printable)
| FigShow (df : DataFrame).

Definition is_api_call (e : event) : bool :=
  match e with
  | ApiSearch _ _ | ApiTopTracks _ _ _ | ApiPlaylistItems _ _
  | ApiNext _ _ | ApiAudioFeatures _ _ => true
  | _ => false
  end.

Section Script.

(** The remote service behind the client handle [sp]: a state machine
    whose transitions are the five client methods the script calls. *)
Variable S : Type.

Record Spotify : Type := mkSpotify {
  (* sp.search(q=.., type="artist", limit=1) *)
  sp_search : string -> S -> outcome value * S;
  (* sp.artist_top_tracks(artist_id, market=..) *)
  sp_artist_top_tracks : value -> string -> S -> outcome value * S;
  (* sp.playlist_items(playlist_id, fields=.., additional_types=['track']) *)
  sp_playlist_items : string -> S -> outcome value * S;
  (* sp.next(results) *)
  sp_next : value -> S -> outcome value * S;
  (* sp.audio_features(batch) *)
  sp_audio_features : list value -> S -> outcome value * S
}.

(** A computation: outcome, next service state, events emitted. *)
Definition M (A : Type) : Type := S -> outcome A * S * list event.

Definition ret {A} (a : A) : M A := fun s => (Returns a, s, []).

Definition raise {A} (e : exn) : M A := fun s => (Raises e, s, []).

Definition bind {A B} (m : M A) (f : A -> M B) : M B :=
  fun s =>
    match m s with
    | (Returns a, s1, t1) =>
        let '(r, s2, t2) := f a s1 in (r, s2, t1 ++ t2)
    | (Raises e, s1, t1) => (Raises e, s1, t1)
    end.

Definition lift {A} (o : outcome A) : M A := fun s => (o, s, []).

Definition emit (e : event) : M unit := fun s => (Returns tt, s, [e]).

(** A request: one transition of the service, recorded with its outcome. *)
Definition request {A} (call : S -> outcome A * S) (ev : outcome A -> event) : M A :=
  fun s => let '(r, s1) := call s in (r, s1, [ev r]).

End Script.

Arguments ret {S A} a.
Arguments raise {S A} e.
Arguments lift {S A} o.
Arguments emit {S} e.

Notation "x <- m ;; k" := (bind m (fun x => k))
  (at level 61, m at next level, right associativity).
Notation "m ;;; k" := (bind m (fun _ => k))
  (at level 61, right associativity).

(** Pure steps that can raise, sequenced without a service. *)
Definition obind {A B} (o : outcome A) (f : A -> outcome B) : outcome B :=
  match o with
  | Returns a => f a
  | Raises e => Raises e
  end.

Notation "x <~ o ;; k" := (obind o (fun x => k))
  (at level 61, o at next level, right associativity).

Fixpoint omap {A B} (f : A -> outcome B) (l : list A) : outcome (list B) :=
  match l with
  | [] => Returns []
  | x :: rest =>
      y <~ f x ;;
      ys <~ omap f rest ;;
      Returns (y :: ys)
  end.

(** [try: m except <class>: h] *)
Definition try_except {S A} (m : M S A) (caught : exn -> bool) (h : exn -> M S A)
  : M S A :=
  fun s =>
    match m s with
    | (Raises e, s1, t1) =>
        if caught e
        then let '(r, s2, t2) := h e s1 in (r, s2, t1 ++ t2)
        else (Raises e, s1, t1)
    | done => done
    end.

(** ** Helpers of the script *)

(** [range(0, stop, step)] for a step of at least 1: count up from [i]
    while below [stop]; [stop] rounds are enough. *)
Fixpoint range_from (rounds i stop step : nat) : list nat :=
  match rounds with
  | 0 => []
  | Datatypes.S rounds' =>
      if Nat.ltb i stop then i :: range_from rounds' (i + step) stop step else []
  end.

Definition py_range (stop step : nat) : list nat := range_from stop 0 stop step.

(** [lst[i:j]] *)
Definition slice {A} (lst : list A) (i j : nat) : list A :=
  firstn (j - i) (skipn i lst).

(** [chunked(lst, n)]: the generator's items, in order, for [n] of at
    least 1 (with a step of 0, [range] raises ValueError). *)
Definition chunked {A} (lst : list A) (n : nat) : list (list A) :=
  map (fun i => slice lst i (i + n)) (py_range (List.length lst) n).

(** [time.sleep(0.1)], in milliseconds. *)
Definition PAUSE_MS : Z := 100.

Definition BATCH : nat := 100.

(** ** The metadata table *)

(** One round of the loop over [top_tracks]: the metadata record of a
    track and the track id appended to [track_ids].  The subscripts are
    evaluated in the order of the source. *)
Definition track_row (t : value) : outcome (dict * value) :=
  t_artists <~ py_getitem t "artists" ;;
  arts <~ py_iter t_artists ;;
  names <~ omap (fun a => py_getitem a "name") arts ;;
  artists <~ py_join ", " names ;;
  t_name <~ py_getitem t "name" ;;
  t_id <~ py_getitem t "id" ;;
  t_album <~ py_getitem t "album" ;;
  album_name <~ py_getitem t_album "name" ;;
  popularity <~ py_get t "popularity" VNone ;;
  duration_ms <~ py_get t "duration_ms" VNone ;;
  t_id' <~ py_getitem t "id" ;;
  Returns ([("track_name", t_name);
            ("track_id", t_id);
            ("artists", VStr artists);
            ("album", album_name);
            ("popularity", popularity);
            ("duration_ms", duration_ms)],
           t_id').

(** [tracks_meta] and [track_ids] after the loop. *)
Definition tracks_meta_and_ids (top_tracks : value)
  : outcome (list dict * list value) :=
  ts <~ py_iter top_tracks ;;
  rs <~ omap track_row ts ;;
  Returns (map fst rs, map snd rs).

(** ** The table assembler: lines 123-126 *)
Definition assemble (df_meta : DataFrame) (feats : list value) : outcome DataFrame :=
  df_feats <~ pd_DataFrame feats ;;
  merge_left df_meta df_feats "track_id" "id".

(** [px.scatter(df, x='tempo', y='danceability', size='popularity',
    hover_data=['track_name', 'artists'])] needs these columns, and a
    marker size for every row: a number that is not negative.  A null in
    the size column, or anything that is not a number, is refused with
    ValueError. *)
Definition PLOT_COLUMNS : list string :=
  ["tempo"; "danceability"; "popularity"; "track_name"; "artists"].

Definition column_cells (c : string) (df : DataFrame) : list value :=
  match column_index c (columns df) with
  | Some i => map (key_at i) (rows df)
  | None => []
  end.

Definition is_size (v : value) : bool :=
  match v with
  | VInt z => (0 <=? z)%Z
  | VFloat q => (0 <=? Qnum q)%Z
  | _ => false
  end.

Section Program.

Variable S : Type.
Variable sp : Spotify S.

(** One round of the loop of [safe_audio_features]: the [try] block with
    its handler.  [None] is the handler's [return None]; [Some l] is the
    extended [all_feats]. *)
Definition fetch_batch (all_feats : list value) (batch : list value)
  : M S (option (list value)) :=
  try_except
    (feats <- request (sp_audio_features sp batch) (ApiAudioFeatures batch) ;;
     items <- lift (py_iter feats) ;;
     ret (Some (all_feats ++ items)))
    is_SpotifyException
    (fun e =>
       emit (Print [PStr "audio_features() failed:"; PExn e]) ;;;
       emit (Print [PStr "This could be due to Spotify restricting the audio-features endpoint for new apps."]) ;;;
       ret None).

Fixpoint fetch_batches (batches : list (list value)) (all_feats : list value)
  : M S (option (list value)) :=
  match batches with
  | [] => ret (Some all_feats)
  | batch :: rest =>
      r <- fetch_batch all_feats batch ;;
      match r with
      | None => ret None
      | Some all_feats' =>
          emit (Sleep PAUSE_MS) ;;;
          fetch_batches rest all_feats'
      end
  end.

(** [safe_audio_features(sp, track_ids)]: [None] is the failure signal,
    [Some l] the list of feature records. *)
Definition safe_audio_features (track_ids : list value)
  : M S (option (list value)) :=
  fetch_batches (chunked track_ids BATCH) [].

(** ** Tasks *)

(** Lines 69-72 of [search_artist]: what it makes of the response. *)
Definition first_artist (res : value) : outcome value :=
  artists <~ py_get res "artists" (VDict []) ;;
  items <~ py_get artists "items" (VList []) ;;
  if negb (truthy items) then Returns VNone else py_first items.

Definition search_artist (artist_name : string) : M S value :=
  let q := ("artist:" ++ artist_name)%string in
  res <- request (sp_search sp q) (ApiSearch q) ;;
  lift (first_artist res).

Definition artist_top_tracks_in_market (artist_id : value) (market : string)
  : M S value :=
  top <- request (sp_artist_top_tracks sp artist_id market)
                 (ApiTopTracks artist_id market) ;;
  lift (py_get top "tracks" (VList [])).

(** [tracks.extend(results['items'])] *)
Definition extend_with_items (tracks results : value) : outcome value :=
  match tracks with
  | VList l =>
      items <~ py_getitem results "items" ;;
      xs <~ py_iter items ;;
      Returns (VList (l ++ xs))
  | _ => Raises AttributeError
  end.

(** The [while] loop of [get_playlist_tracks], run for at most [rounds]
    tests of its condition.  The result [None] says that the rounds ran
    out before the loop ended. *)
Fixpoint follow_next (rounds : nat) (results tracks : value) : M S (option value) :=
  match rounds with
  | 0 => ret None
  | Datatypes.S rounds' =>
      nxt <- lift (py_get results "next" VNone) ;;
      if truthy nxt then
        results' <- request (sp_next sp results) (ApiNext results) ;;
        tracks' <- lift (extend_with_items tracks results') ;;
        follow_next rounds' results' tracks'
      else ret (Some tracks)
  end.

Definition get_playlist_tracks (rounds : nat) (playlist_id : string)
  : M S (option value) :=
  results <- request (sp_playlist_items sp playlist_id)
                     (ApiPlaylistItems playlist_id) ;;
  tracks <- lift (py_getitem results "items") ;;
  follow_next rounds results tracks.

(** ** The example: artist -> top tracks -> features -> table *)

Definition analyze_artist (artist_name : string) (market : string)
  : M S (option DataFrame) :=
  artist <- search_artist artist_name ;;
  if negb (truthy artist) then
    emit (Print [PStr "Artist not found:"; PStr artist_name]) ;;;
    ret None
  else
    artist_id <- lift (py_getitem artist "id") ;;
    name <- lift (py_getitem artist "name") ;;
    emit (Print [PStr "Found artist: "; PVal name; PStr " (id="; PVal artist_id; PStr ")"]) ;;;
    top_tracks <- artist_top_tracks_in_market artist_id market ;;
    if negb (truthy top_tracks) then
      emit (Print [PStr "No top tracks returned."]) ;;;
      ret None
    else
      mi <- lift (tracks_meta_and_ids top_tracks) ;;
      let df_meta := frame_of_dicts (fst mi) in
      feats <- safe_audio_features (snd mi) ;;
      match feats with
      | None =>
          emit (Print [PStr "Audio features unavailable. Proceeding with metadata-only analysis."]) ;;;
          ret (Some df_meta)
      | Some fs =>
          df <- lift (assemble df_meta fs) ;;
          ret (Some df)
      end.

(** ** The entry point *)

Definition scatter_and_show (df : DataFrame) : M S unit :=
  if forallb (fun c => mem_string c (columns df)) PLOT_COLUMNS
     && forallb is_size (column_cells "popularity" df)
  then emit (FigShow df)
  else raise ValueError.

Definition main : M S unit :=
  df <- analyze_artist "Arijit Singh" "IN" ;;
  match df with
  | None => raise (SystemExit "No data returned.")
  | Some df =>
      emit (Print [PFrame (head df)]) ;;;
      if mem_string "danceability" (columns df)
      then scatter_and_show df
      else emit (Print [PStr "No audio features available; try using a Kaggle audio-features dataset or request extended access from Spotify."])
  end.

End Program.

(** What the interpreter makes of the end of the run: the exit status and
    what it writes to stderr.  [SystemExit] with a string argument prints
    the string and exits with status 1; any other uncaught exception ends
    the process with status 1 after its traceback. *)
Definition exit_status (r : outcome unit) : Z :=
  match r with
  | Returns _ => 0%Z
  | Raises _ => 1%Z
  end.

Definition exit_message (r : outcome unit) : option string :=
  match r with
  | Raises (SystemExit msg) => Some msg
  | _ => None
  end.

(** * Vocabulary of the properties *)

(** The ceiling of [a / b]. *)
Definition ceil_div (a b : nat) : nat := (a + b - 1) / b.

(** The batches of the feature requests of a trace, in order. *)
Definition feature_requests (t : list event) : list (list value) :=
  flat_map (fun e => match e with
                     | ApiAudioFeatures b _ => [b]
                     | _ => []
                     end) t.

Definition record_id (r : value) : value :=
  match r with
  | VDict d => cell d "id"
  | _ => VNone
  end.

(** The trace of a run in which every group is answered by a list. *)
Definition success_trace (groups resps : list (list value)) : list event :=
  flat_map (fun gr => [ApiAudioFeatures (fst gr) (Returns (VList (snd gr)));
                       Sleep PAUSE_MS])
           (combine groups resps).

(** A pause of the length the fetcher sleeps. *)
Definition is_pause (e : event) : bool :=
  match e with
  | Sleep ms => (ms =? PAUSE_MS)%Z
  | _ => false
  end.

(** The requests that walk the pages: each page is asked for its next. *)
Fixpoint next_trace (pages : list value) : list event :=
  match pages with
  | page :: (page' :: _) as rest => ApiNext page (Returns page') :: next_trace rest
  | _ => []
  end.

(** The columns of the metadata table. *)
Definition META_COLUMNS : list string :=
  ["track_name"; "track_id"; "artists"; "album"; "popularity"; "duration_ms"].

(** The computation [m] emits only events that satisfy [P]. *)
Definition emits_only {S A} (P : event -> bool) (m : M S A) : Prop :=
  forall s, forallb P (snd (m s)) = true.

Definition not_plot (e : event) : bool :=
  match e with
  | FigShow _ => false
  | _ => true
  end.

Definition not_feature_request (e : event) : bool :=
  match e with
  | ApiAudioFeatures _ _ => false
  | _ => true
  end.

Section Runs.

Variable S : Type.
Variable sp : Spotify S.

(** The service, asked the groups in order from state [s], answers each
    with a list of records and ends in state [s']. *)
Inductive all_succeed : S -> list (list value) -> list (list value) -> S -> Prop :=
| all_succeed_nil s : all_succeed s [] [] s
| all_succeed_cons s batch rest resp resps s1 s' :
    sp_audio_features sp batch s = (Returns (VList resp), s1) ->
    all_succeed s1 rest resps s' ->
    all_succeed s (batch :: rest) (resp :: resps) s'.

(** [page_chain s page pages s']: from [page], whose successors the
    service hands out from state [s], the pages [pages] (the first being
    [page]) follow one another; every page but the last has a truthy
    "next" cursor, the last has none, and the service ends in [s']. *)
Inductive page_chain : S -> value -> list value -> S -> Prop :=
| chain_last s page nxt :
    py_get page "next" VNone = Returns nxt ->
    truthy nxt = false ->
    page_chain s page [page] s
| chain_next s page nxt page' s1 pages s' :
    py_get page "next" VNone = Returns nxt ->
    truthy nxt = true ->
    sp_next sp page s = (Returns page', s1) ->
    page_chain s1 page' pages s' ->
    page_chain s page (page :: pages) s'.

End Runs.

(** Induction on values, through the lists and dicts they hold. *)
Section ValueInd.

Variable P : value -> Prop.
Hypothesis HNone : P VNone.
Hypothesis HBool : forall b, P (VBool b).
Hypothesis HInt : forall z, P (VInt z).
Hypothesis HFloat : forall q, P (VFloat q).
Hypothesis HStr : forall s, P (VStr s).
Hypothesis HList : forall l, Forall P l -> P (VList l).
Hypothesis HDict : forall d, Forall (fun kv => P (snd kv)) d -> P (VDict d).

Fixpoint value_ind' (v : value) : P v :=
  match v with
  | VNone => HNone
  | VBool b => HBool b
  | VInt z => HInt z
  | VFloat q => HFloat q
  | VStr s => HStr s
  | VList l =>
      HList
        ((fix go (l : list value) : Forall P l :=
            match l with
            | [] => Forall_nil _
            | x :: l' => Forall_cons x (value_ind' x) (go l')
            end) l)
  | VDict d =>
      HDict
        ((fix go (d : dict) : Forall (fun kv => P (snd kv)) d :=
            match d with
            | [] => Forall_nil _
            | kv :: d' =>
                Forall_cons (P := fun kv => P (snd kv)) kv
                  (value_ind' (snd kv)) (go d')
            end) d)
  end.

End ValueInd.

(** * Test doubles *)

Definition string_of_nat (n : nat) : string :=
  NilEmpty.string_of_uint (Nat.to_uint n).

(** [n] distinct track ids: "t0", "t1", ... *)
Definition sample_ids (n : nat) : list value :=
  map (fun k => VStr ("t" ++ string_of_nat k)%string) (seq 0 n).

Definition feature_dict (id : value) : dict :=
  [("id", id); ("danceability", VFloat (3 # 5)); ("tempo", VInt 120)].

Definition features_for (id : value) : value := VDict (feature_dict id).

Definition sample_track (id : value) : value :=
  VDict [("name", VStr "Song"); ("id", id);
         ("artists", VList [VDict [("name", VStr "Arijit Singh")];
                            VDict [("name", VStr "Pritam")]]);
         ("album", VDict [("name", VStr "Album")]);
         ("popularity", VInt 80); ("duration_ms", VInt 240000)].

Definition sample_artist : value :=
  VDict [("id", VStr "a1"); ("name", VStr "Arijit Singh")].

Definition search_hit (artist : value) : value :=
  VDict [("artists", VDict [("items", VList [artist])])].

Definition search_miss : value :=
  VDict [("artists", VDict [("items", VList [])])].

Definition top_tracks_of (ids : list value) : value :=
  VDict [("tracks", VList (map sample_track ids))].

(** A service double.  Its state counts the feature requests made so far.
    The search and the top tracks are fixed; the feature request number
    [k] raises [e] when [fail_at] is [Some (k, e)], and otherwise answers
    with [answer batch].  The playlist is a first page and the pages
    reached from a cursor. *)
Record double : Type := mkDouble {
  d_search : value;
  d_top : value;
  d_fail_at : option (nat * exn);
  d_answer : list value -> value;
  d_first_page : value;
  d_pages : dict
}.

Definition double_service (d : double) : Spotify nat :=
  {| sp_search := fun _ s => (Returns (d_search d), s);
     sp_artist_top_tracks := fun _ _ s => (Returns (d_top d), s);
     sp_playlist_items := fun _ s => (Returns (d_first_page d), s);
     sp_next := fun page s =>
       (match page with
        | VDict p =>
            match dict_lookup "next" p with
            | Some (VStr cursor) =>
                match dict_lookup cursor (d_pages d) with
                | Some page' => Returns page'
                | None => Raises (SpotifyException 404 "Not found")
                end
            | _ => Returns VNone
            end
        | _ => Raises TypeError
        end, s);
     sp_audio_features := fun batch s =>
       (match d_fail_at d with
        | Some (k, e) =>
            if Nat.eqb s k then Raises e else Returns (d_answer d batch)
        | None => Returns (d_answer d batch)
        end, Datatypes.S s) |}.

Definition honest (ids : list value) : double :=
  {| d_search := search_hit sample_artist;
     d_top := top_tracks_of ids;
     d_fail_at := None;
     d_answer := fun batch => VList (map features_for batch);
     d_first_page := VDict [("items", VList []); ("next", VNone)];
     d_pages := [] |}.

Definition failing (ids : list value) (k : nat) (e : exn) : double :=
  {| d_search := search_hit sample_artist;
     d_top := top_tracks_of ids;
     d_fail_at := Some (k, e);
     d_answer := fun batch => VList (map features_for batch);
     d_first_page := VDict [("items", VList []); ("next", VNone)];
     d_pages := [] |}.

(** A service whose feature endpoint answers every request with []. *)
Definition silent (ids : list value) : double :=
  {| d_search := search_hit sample_artist;
     d_top := top_tracks_of ids;
     d_fail_at := None;
     d_answer := fun _ => VList [];
     d_first_page := VDict [("items", VList []); ("next", VNone)];
     d_pages := [] |}.

Definition RATE_LIMITED : exn := SpotifyException 429 "API rate limit exceeded".

(** A service whose search answers with [res]. *)
Definition answering (res : value) : double :=
  {| d_search := res;
     d_top := top_tracks_of [];
     d_fail_at := None;
     d_answer := fun batch => VList (map features_for batch);
     d_first_page := VDict [("items", VList []); ("next", VNone)];
     d_pages := [] |}.

Definition PAGE0 : value :=
  VDict [("items", VList [VStr "a"; VStr "b"]); ("next", VStr "c1")].
Definition PAGE1 : value :=
  VDict [("items", VList [VStr "c"]); ("next", VStr "c2")].
Definition PAGE2 : value :=
  VDict [("items", VList [VStr "d"]); ("next", VNone)].

Definition three_pages : double :=
  {| d_search := search_miss;
     d_top := top_tracks_of [];
     d_fail_at := None;
     d_answer := fun batch => VList (map features_for batch);
     d_first_page := PAGE0;
     d_pages := [("c1", PAGE1); ("c2", PAGE2)] |}.

Definition sample_meta (id : value) : dict :=
  [("track_name", VStr "Song"); ("track_id", id);
   ("artists", VStr "Arijit Singh, Pritam"); ("album", VStr "Album");
   ("popularity", VInt 80); ("duration_ms", VInt 240000)].

Definition CONNECTION_ERROR : exn := OtherError "requests.exceptions.ConnectionError".

(** * Vocabulary of the further properties *)

(** A value that is a dict. *)
Definition is_dict (v : value) : bool :=
  match v with
  | VDict _ => true
  | _ => false
  end.

(** A page that sends the paginator on: it has a truthy "next" cursor,
    and its "items" entry is a list. *)
Definition has_more (page : value) : Prop :=
  exists nxt its,
    py_get page "next" VNone = Returns nxt /\
    truthy nxt = true /\
    py_getitem page "items" = Returns (VList its).

(** What the feature requests of a trace were answered with, in order. *)
Definition feature_responses (t : list event) : list value :=
  flat_map (fun e => match e with
                     | ApiAudioFeatures _ (Returns v) => [v]
                     | _ => []
                     end) t.

(** The elements [extend] takes from a response. *)
Definition items_of (v : value) : list value :=
  match py_iter v with
  | Returns items => items
  | Raises _ => []
  end.

(** The feature requests of a trace with their outcomes, in order. *)
Definition request_outcomes (t : list event) : list (list value * outcome value) :=
  flat_map (fun e => match e with
                     | ApiAudioFeatures b o => [(b, o)]
                     | _ => []
                     end) t.

(** The request returned, and [extend] can iterate what it returned. *)
Definition answered (o : outcome value) : bool :=
  match o with
  | Returns v =>
      match py_iter v with
      | Returns _ => true
      | Raises _ => false
      end
  | Raises _ => false
  end.

Definition outcome_items (o : outcome value) : list value :=
  match o with
  | Returns v => items_of v
  | Raises _ => []
  end.

(** How the fetcher ends on a request that is not [answered]: the
    failure signal for a service error, the exception for any other, and
    TypeError for an answer that cannot be iterated. *)
Definition failure_result (o : outcome value) : outcome (option (list value)) :=
  match o with
  | Raises e => if is_SpotifyException e then Returns None else Raises e
  | Returns _ => Raises TypeError
  end.

Section Served.

Variable S : Type.
Variable sp : Spotify S.

(** The service, asked the batches one after the other from state [s],
    gave these outcomes and ended in state [s']. *)
Inductive served : S -> list (list value * outcome value) -> S -> Prop :=
| served_nil s : served s [] s
| served_cons s batch o s1 rest s' :
    sp_audio_features sp batch s = (o, s1) ->
    served s1 rest s' ->
    served s ((batch, o) :: rest) s'.

End Served.

(** What [print] shows when an artist is found. *)
Definition found_artist (name artist_id : value) : event :=
  Print [PStr "Found artist: "; PVal name; PStr " (id="; PVal artist_id; PStr ")"].

Definition NO_FEATURES_MESSAGE : event :=
  Print [PStr "No audio features available; try using a Kaggle audio-features dataset or request extended access from Spotify."].

(** * More test doubles *)

(** The double [d] with a search, a top-tracks request or a next-page
    request that raises. *)
Definition with_errors (e_search e_top e_next : option exn) (d : double)
  : Spotify nat :=
  let sv := double_service d in
  {| sp_search := fun q s =>
       match e_search with
       | Some e => (Raises e, s)
       | None => sp_search sv q s
       end;
     sp_artist_top_tracks := fun artist_id market s =>
       match e_top with
       | Some e => (Raises e, s)
       | None => sp_artist_top_tracks sv artist_id market s
       end;
     sp_playlist_items := sp_playlist_items sv;
     sp_next := fun page s =>
       match e_next with
       | Some e => (Raises e, s)
       | None => sp_next sv page s
       end;
     sp_audio_features := sp_audio_features sv |}.

(** A service whose feature endpoint answers with [v], whatever is asked. *)
Definition answering_features (v : value) : double :=
  {| d_search := search_hit sample_artist;
     d_top := top_tracks_of (sample_ids 2);
     d_fail_at := None;
     d_answer := fun _ => v;
     d_first_page := VDict [("items", VList []); ("next", VNone)];
     d_pages := [] |}.

(** A page whose cursor leads back to itself. *)
Definition LOOP_PAGE : value :=
  VDict [("items", VList [VStr "a"]); ("next", VStr "again")].

Definition looping : double :=
  {| d_search := search_miss;
     d_top := top_tracks_of [];
     d_fail_at := None;
     d_answer := fun batch => VList (map features_for batch);
     d_first_page := LOOP_PAGE;
     d_pages := [("again", LOOP_PAGE)] |}.

(** A playlist whose first page has no "items" entry. *)
Definition bare_playlist : double :=
  {| d_search := search_miss;
     d_top := top_tracks_of [];
     d_fail_at := None;
     d_answer := fun batch => VList (map features_for batch);
     d_first_page := VDict [("next", VNone)];
     d_pages := [] |}.

Definition other_artist : value :=
  VDict [("id", VStr "a2"); ("name", VStr "Another Singer")].

(** * Properties *)

(** ** Equality of values *)

Lemma Q_eqb_eq (p q : Q) : Q_eqb p q = true <-> p = q.
Proof.
  destruct p as [a b], q as [c d]; unfold Q_eqb; simpl.
  rewrite andb_true_iff, Z.eqb_eq, Pos.eqb_eq.
  split; [intros [-> ->]; reflexivity | intros H; inversion H; auto].
Qed.

Lemma value_eqb_eq (v w : value) : value_eqb v w = true <-> v = w.
Proof.
  revert w; induction v using value_ind'; intros w; destruct w;
    simpl; try (split; [discriminate | congruence]).
  - split; reflexivity.
  - rewrite Bool.eqb_true_iff. split; congruence.
  - rewrite Z.eqb_eq. split; congruence.
  - rewrite Q_eqb_eq. split; congruence.
  - rewrite String.eqb_eq. split; congruence.
  - revert l0. induction H as [|x l Hx Hl IH]; intros [|y m];
      try (split; [discriminate | congruence]).
    + split; reflexivity.
    + rewrite andb_true_iff, Hx, IH.
      split; [intros [-> E]; congruence | intros E; inversion E; auto].
  - revert d0. induction H as [|[k x] d Hx Hd IH]; intros [|[k' y] e];
      try (split; [discriminate | congruence]).
    + split; reflexivity.
    + simpl in Hx. rewrite !andb_true_iff, String.eqb_eq, Hx, IH.
      split; [intros [[-> ->] E]; congruence | intros E; inversion E; auto].
Qed.

Lemma value_eqb_refl (v : value) : value_eqb v v = true.
Proof. apply value_eqb_eq; reflexivity. Qed.

Lemma value_eqb_neq (v w : value) : value_eqb v w = false <-> v <> w.
Proof.
  rewrite <- value_eqb_eq. destruct (value_eqb v w); split; congruence.
Qed.

(** ** [chunked]: the groups of a list *)

Lemma ceil_div_spec (a b : nat) :
  0 < b ->
  a <= b * ceil_div a b /\ b * ceil_div a b < a + b.
Proof.
  intros Hb. unfold ceil_div.
  pose proof (Nat.div_mod_eq (a + b - 1) b) as E.
  pose proof (Nat.mod_upper_bound (a + b - 1) b) as U.
  split; nia.
Qed.

Lemma ceil_div_unique (a b k : nat) :
  0 < b -> a <= b * k -> b * k < a + b -> ceil_div a b = k.
Proof.
  intros Hb H1 H2. destruct (ceil_div_spec a Hb) as [H3 H4].
  set (c := ceil_div a b) in *.
  destruct (Nat.lt_trichotomy c k) as [Hlt|[Heq|Hgt]]; [|assumption|].
  - assert (b * (c + 1) <= b * k) by (apply Nat.mul_le_mono_l; lia). lia.
  - assert (b * (k + 1) <= b * c) by (apply Nat.mul_le_mono_l; lia). lia.
Qed.

Lemma ceil_div_0 (b : nat) : 0 < b -> ceil_div 0 b = 0.
Proof. intros Hb. apply ceil_div_unique; lia. Qed.

Lemma ceil_div_step (a b : nat) :
  0 < b -> 0 < a -> ceil_div a b = Datatypes.S (ceil_div (a - b) b).
Proof.
  intros Hb Ha. destruct (ceil_div_spec (a - b) Hb) as [H1 H2].
  set (c := ceil_div (a - b) b) in *.
  apply ceil_div_unique; [assumption | |]; rewrite Nat.mul_succ_r.
  - lia.
  - destruct (Nat.le_gt_cases b a) as [Hle|Hlt]; [lia|].
    destruct c as [|c]; [lia|]. rewrite Nat.mul_succ_r in H2. lia.
Qed.

Lemma range_from_seq (step : nat) :
  0 < step ->
  forall rounds i stop,
    stop <= i + rounds ->
    range_from rounds i stop step
    = map (fun k => i + k * step) (seq 0 (ceil_div (stop - i) step)).
Proof.
  intros Hstep. induction rounds as [|rounds IH]; intros i stop Hle; simpl.
  - replace (stop - i) with 0 by lia. rewrite ceil_div_0 by assumption.
    reflexivity.
  - destruct (Nat.ltb_spec i stop) as [Hlt|Hge].
    + rewrite (@ceil_div_step (stop - i) step) by lia.
      simpl. rewrite Nat.add_0_r. f_equal.
      rewrite IH by lia. rewrite <- seq_shift, map_map.
      replace (stop - i - step) with (stop - (i + step)) by lia.
      apply map_ext. intros k. simpl. lia.
    + replace (stop - i) with 0 by lia. rewrite ceil_div_0 by assumption.
      reflexivity.
Qed.

Lemma py_range_seq (stop step : nat) :
  0 < step ->
  py_range stop step = map (fun k => k * step) (seq 0 (ceil_div stop step)).
Proof.
  intros Hstep. unfold py_range.
  rewrite range_from_seq by lia. rewrite Nat.sub_0_r. reflexivity.
Qed.

(** The [k]-th group is [lst[k*n : k*n + n]]. *)
Lemma chunked_seq {A} (lst : list A) (n : nat) :
  0 < n ->
  chunked lst n
  = map (fun k => slice lst (k * n) (k * n + n))
        (seq 0 (ceil_div (List.length lst) n)).
Proof.
  intros Hn. unfold chunked. rewrite py_range_seq by assumption.
  rewrite map_map. reflexivity.
Qed.

Lemma chunked_length {A} (lst : list A) (n : nat) :
  0 < n -> List.length (chunked lst n) = ceil_div (List.length lst) n.
Proof.
  intros Hn. rewrite chunked_seq by assumption.
  rewrite length_map, length_seq. reflexivity.
Qed.

Lemma concat_slices {A} (lst : list A) (n : nat) :
  0 < n ->
  forall rounds i,
    List.length lst <= i + rounds ->
    List.concat (map (fun j => slice lst j (j + n))
                (range_from rounds i (List.length lst) n))
    = skipn i lst.
Proof.
  intros Hn. induction rounds as [|rounds IH]; intros i Hle; simpl.
  - symmetry. apply skipn_all2. lia.
  - destruct (Nat.ltb_spec i (List.length lst)) as [Hlt|Hge]; simpl.
    + rewrite IH by lia. unfold slice.
      replace (i + n - i) with n by lia.
      rewrite Nat.add_comm, <- skipn_skipn. apply firstn_skipn.
    + symmetry. apply skipn_all2. lia.
Qed.

Lemma chunked_concat {A} (lst : list A) (n : nat) :
  0 < n -> List.concat (chunked lst n) = lst.
Proof.
  intros Hn. unfold chunked, py_range.
  rewrite concat_slices by lia. reflexivity.
Qed.

Lemma chunked_sizes {A} (lst : list A) (n : nat) :
  0 < n ->
  Forall (fun g => 1 <= List.length g <= n) (chunked lst n).
Proof.
  intros Hn. rewrite chunked_seq by assumption.
  apply Forall_forall. intros g Hg.
  apply in_map_iff in Hg. destruct Hg as (k & <- & Hk).
  apply in_seq in Hk.
  destruct (ceil_div_spec (List.length lst) Hn) as [_ Hc].
  unfold slice. rewrite length_firstn, length_skipn. nia.
Qed.

(** ** Runs of the batched feature fetcher *)

Section Fetcher.

Variable S : Type.
Variable sp : Spotify S.

Lemma py_iter_raises (v : value) (e : exn) :
  py_iter v = Raises e -> e = TypeError.
Proof. destruct v; simpl; congruence. Qed.

Lemma fetch_batch_run (all_feats batch : list value) (s : S) :
  fetch_batch sp all_feats batch s
  = match sp_audio_features sp batch s with
    | (Returns feats, s1) =>
        match py_iter feats with
        | Returns items =>
            (Returns (Some (all_feats ++ items)), s1,
             [ApiAudioFeatures batch (Returns feats)])
        | Raises _ =>
            (Raises TypeError, s1, [ApiAudioFeatures batch (Returns feats)])
        end
    | (Raises e, s1) =>
        if is_SpotifyException e
        then (Returns None, s1,
              [ApiAudioFeatures batch (Raises e);
               Print [PStr "audio_features() failed:"; PExn e];
               Print [PStr "This could be due to Spotify restricting the audio-features endpoint for new apps."]])
        else (Raises e, s1, [ApiAudioFeatures batch (Raises e)])
    end.
Proof.
  unfold fetch_batch, try_except, bind, request, lift, ret, emit.
  destruct (sp_audio_features sp batch s) as [[feats|e] s1]; simpl.
  - destruct (py_iter feats) as [items|e] eqn:E; simpl; [reflexivity|].
    rewrite (py_iter_raises _ E). reflexivity.
  - destruct (is_SpotifyException e); reflexivity.
Qed.

Lemma fetch_batches_cons (batch : list value) rest all_feats (s : S) :
  fetch_batches sp (batch :: rest) all_feats s
  = match fetch_batch sp all_feats batch s with
    | (Returns (Some all_feats'), s1, t1) =>
        let '(r, s2, t2) := fetch_batches sp rest all_feats' s1 in
        (r, s2, t1 ++ Sleep PAUSE_MS :: t2)
    | (Returns None, s1, t1) => (Returns None, s1, t1)
    | (Raises e, s1, t1) => (Raises e, s1, t1)
    end.
Proof.
  simpl. unfold bind at 1.
  destruct (fetch_batch sp all_feats batch s) as [[[[l|]|e] s1] t1];
    try reflexivity.
  - unfold bind, emit. simpl.
    destruct (fetch_batches sp rest l s1) as [[r s2] t2]. reflexivity.
  - unfold ret. rewrite app_nil_r. reflexivity.
Qed.

(** An all-success run: its result, final state and trace. *)
Lemma fetch_batches_all_succeed s groups resps s' :
  all_succeed sp s groups resps s' ->
  forall all_feats,
    fetch_batches sp groups all_feats s
    = (Returns (Some (all_feats ++ List.concat resps)), s',
       success_trace groups resps).
Proof.
  induction 1 as [s|s batch rest resp resps s1 s' Hreq Hrest IH]; intros all_feats.
  - simpl. unfold ret. rewrite app_nil_r. reflexivity.
  - rewrite fetch_batches_cons, fetch_batch_run, Hreq. simpl.
    rewrite IH, <- app_assoc. reflexivity.
Qed.

Lemma feature_requests_success groups resps :
  List.length groups = List.length resps ->
  feature_requests (success_trace groups resps) = groups.
Proof.
  revert resps. induction groups as [|g groups IH]; intros [|r resps] Hlen;
    try discriminate; [reflexivity|].
  simpl in *. unfold success_trace in IH. rewrite IH by lia. reflexivity.
Qed.

Lemma all_succeed_length s groups resps s' :
  all_succeed sp s groups resps s' -> List.length groups = List.length resps.
Proof. induction 1; simpl; congruence. Qed.

(** Any run asks for a prefix of the groups, in order. *)
Lemma fetch_batches_requests_prefix groups :
  forall all_feats s,
    exists n,
      feature_requests (snd (fetch_batches sp groups all_feats s))
      = firstn n groups.
Proof.
  induction groups as [|batch rest IH]; intros all_feats s.
  - exists 0. reflexivity.
  - rewrite fetch_batches_cons, fetch_batch_run.
    destruct (sp_audio_features sp batch s) as [[feats|e] s1].
    + destruct (py_iter feats) as [items|e']; [|exists 1; reflexivity].
      destruct (IH (all_feats ++ items) s1) as [n Hn].
      destruct (fetch_batches sp rest (all_feats ++ items) s1) as [[r s2] t2].
      exists (Datatypes.S n). simpl in *. rewrite Hn. reflexivity.
    + exists 1. destruct (is_SpotifyException e); reflexivity.
Qed.

(** A request that raised is the last one of the run, and decides it. *)
Lemma fetch_batches_raised groups :
  forall all_feats s b e,
    let '(r, _, t) := fetch_batches sp groups all_feats s in
    In (ApiAudioFeatures b (Raises e)) t ->
    r = if is_SpotifyException e then Returns None else Raises e.
Proof.
  induction groups as [|batch rest IH]; intros all_feats s b e.
  - simpl. intros [].
  - rewrite fetch_batches_cons, fetch_batch_run.
    destruct (sp_audio_features sp batch s) as [[feats|e0] s1].
    + destruct (py_iter feats) as [items|e'].
      * specialize (IH (all_feats ++ items) s1 b e).
        destruct (fetch_batches sp rest (all_feats ++ items) s1) as [[r s2] t2].
        simpl. intros [H|[H|H]]; try discriminate. auto.
      * simpl. intros [H|[]]. discriminate.
    + destruct (is_SpotifyException e0) eqn:E0; simpl.
      * intros [H|[H|[H|[]]]]; try discriminate.
        inversion H; subst. rewrite E0. reflexivity.
      * intros [H|[]]. inversion H; subst. rewrite E0. reflexivity.
Qed.

(** The failure signal comes from a service error and from nothing else. *)
Lemma fetch_batches_none groups :
  forall all_feats s,
    let '(r, _, t) := fetch_batches sp groups all_feats s in
    r = Returns None ->
    exists b e,
      In (ApiAudioFeatures b (Raises e)) t /\ is_SpotifyException e = true.
Proof.
  induction groups as [|batch rest IH]; intros all_feats s.
  - simpl. discriminate.
  - rewrite fetch_batches_cons, fetch_batch_run.
    destruct (sp_audio_features sp batch s) as [[feats|e0] s1].
    + destruct (py_iter feats) as [items|e']; [|discriminate].
      specialize (IH (all_feats ++ items) s1).
      destruct (fetch_batches sp rest (all_feats ++ items) s1) as [[r s2] t2].
      intros Hr. destruct (IH Hr) as (b & e & Hin & He).
      exists b, e. split; [|assumption]. simpl. auto.
    + destruct (is_SpotifyException e0) eqn:E0; [|discriminate].
      intros _. exists batch, e0. split; [|assumption]. simpl. auto.
Qed.

End Fetcher.

(** ** The batched feature fetcher *)

Section FetcherClaims.

Variable S : Type.
Variable sp : Spotify S.

Lemma safe_audio_features_requests_bound (track_ids : list value) (s : S) :
  List.length (feature_requests (snd (safe_audio_features sp track_ids s)))
  <= ceil_div (List.length track_ids) BATCH.
Proof.
  unfold safe_audio_features.
  destruct (fetch_batches_requests_prefix sp (chunked track_ids BATCH) [] s)
    as [n Hn].
  rewrite Hn, length_firstn, chunked_length by (unfold BATCH; lia).
  apply Nat.le_min_r.
Qed.

Lemma concat_ids groups :
  forall resps,
    Forall2 (fun g r => map record_id r = g) groups resps ->
    map record_id (List.concat resps) = List.concat groups.
Proof.
  induction 1 as [|g r groups resps Hgr _ IH]; [reflexivity|].
  simpl. rewrite map_app, Hgr, IH. reflexivity.
Qed.

Lemma concat_lengths groups :
  forall resps,
    Forall2 (fun (g r : list value) => List.length r = List.length g)
            groups resps ->
    List.length (List.concat resps) = List.length (List.concat groups).
Proof.
  induction 1 as [|g r groups resps Hgr _ IH]; [reflexivity|].
  simpl. rewrite !length_app, Hgr, IH. reflexivity.
Qed.

Lemma feature_requests_outcomes (t : list event) :
  feature_requests t = map fst (request_outcomes t).
Proof.
  induction t as [|e t IH]; [reflexivity|].
  destruct e; simpl; rewrite IH; reflexivity.
Qed.

(** Any run: the requests it makes, and how it ends. *)
Lemma fetch_batches_protocol groups :
  forall all_feats s,
    let '(r, s', t) := fetch_batches sp groups all_feats s in
    exists oks last,
      request_outcomes t = oks ++ last /\
      map fst (oks ++ last) = firstn (List.length (oks ++ last)) groups /\
      Forall (fun bo => answered (snd bo) = true) oks /\
      served sp s (oks ++ last) s' /\
      ((last = [] /\
        List.length oks = List.length groups /\
        r = Returns (Some (all_feats
                           ++ flat_map (fun bo => outcome_items (snd bo)) oks)))
       \/
       (exists b o,
           last = [(b, o)] /\ answered o = false /\ r = failure_result o)).
Proof.
  induction groups as [|batch rest IH]; intros all_feats s.
  - simpl. exists [], []. simpl.
    split; [reflexivity|]. split; [reflexivity|]. split; [constructor|].
    split; [constructor|]. left. rewrite app_nil_r. auto.
  - rewrite fetch_batches_cons, fetch_batch_run.
    destruct (sp_audio_features sp batch s) as [[feats|e] s1] eqn:Hcall.
    + destruct (py_iter feats) as [items|e'] eqn:Hfeats.
      * specialize (IH (all_feats ++ items) s1).
        destruct (fetch_batches sp rest (all_feats ++ items) s1) as [[r s2] t2].
        destruct IH as (oks & last & Hreq & Hpre & Hoks & Hserved & Hend).
        exists ((batch, Returns feats) :: oks), last. simpl.
        split; [rewrite Hreq; reflexivity|].
        split; [rewrite Hpre; reflexivity|].
        split; [constructor; [simpl; rewrite Hfeats; reflexivity | assumption]|].
        split; [econstructor; eassumption|].
        destruct Hend as [(-> & Hlen & ->)|(b & o & -> & Ho & ->)].
        -- left. split; [reflexivity|]. split; [rewrite Hlen; reflexivity|].
           unfold items_of. rewrite Hfeats, <- app_assoc. reflexivity.
        -- right. exists b, o. auto.
      * exists [], [(batch, Returns feats)]. simpl.
        split; [reflexivity|]. split; [reflexivity|]. split; [constructor|].
        split; [econstructor; [eassumption | constructor]|].
        right. exists batch, (Returns feats). simpl. rewrite Hfeats. auto.
    + assert (Hserved : served sp s ([] ++ [(batch, Raises e)]) s1)
        by (econstructor; [eassumption | constructor]).
      destruct (is_SpotifyException e) eqn:He;
        (exists [], [(batch, Raises e)]; simpl;
         split; [reflexivity|]; split; [reflexivity|]; split; [constructor|];
         split; [assumption|]; right; exists batch, (Raises e); simpl;
         rewrite He; auto).
Qed.

(** C1, as amended.  The track ids are cut into contiguous groups of 1 to
    100 ids, the k-th group being [track_ids[100k : 100k+100]], and there
    are ceil(L/100) groups.  In any run the fetcher asks the service for
    the groups in order, one request per group, each request a
    transition of the service from the state the request before left.
    Every request but the last one made is answered with something that
    can be iterated; the run stops at the first request that raises or
    whose answer cannot be iterated, with the failure signal for a
    service error and the exception otherwise; and it goes on to the
    last group when no request does so, returning the elements of the
    answers in order.  So a run makes at most ceil(L/100) requests, and
    exactly ceil(L/100) when every request is answered with something
    iterable.  When the service answers every group with a list, the
    result is the lists concatenated in group order: L records when
    every list has as many records as its group has ids, and the records
    of the requested ids, in the order of [track_ids], when every list
    holds the records of its group's ids in order. *)
Theorem safe_audio_features_all_success
    (track_ids : list value) (s s' : S)
    (r : outcome (option (list value))) (t : list event) :
  safe_audio_features sp track_ids s = (r, s', t) ->
  let groups := chunked track_ids BATCH in
  let L := List.length track_ids in
  List.concat groups = track_ids /\
  Forall (fun g => 1 <= List.length g <= 100) groups /\
  groups = map (fun k => slice track_ids (k * 100) (k * 100 + 100))
               (seq 0 (ceil_div L 100)) /\
  (exists oks last,
      request_outcomes t = oks ++ last /\
      map fst (oks ++ last) = firstn (List.length (oks ++ last)) groups /\
      Forall (fun bo => answered (snd bo) = true) oks /\
      served sp s (oks ++ last) s' /\
      ((last = [] /\
        List.length oks = ceil_div L 100 /\
        r = Returns (Some (flat_map (fun bo => outcome_items (snd bo)) oks)))
       \/
       (exists b o,
           last = [(b, o)] /\ answered o = false /\ r = failure_result o))) /\
  List.length (feature_requests t) <= ceil_div L 100 /\
  (Forall (fun bo => answered (snd bo) = true) (request_outcomes t) ->
   List.length (feature_requests t) = ceil_div L 100) /\
  (forall resps s1,
      all_succeed sp s groups resps s1 ->
      r = Returns (Some (List.concat resps)) /\
      s' = s1 /\
      feature_requests t = groups /\
      List.length (feature_requests t) = ceil_div L 100 /\
      (Forall2 (fun g resp => List.length resp = List.length g) groups resps ->
       List.length (List.concat resps) = L) /\
      (Forall2 (fun g resp => map record_id resp = g) groups resps ->
       map record_id (List.concat resps) = track_ids)).
Proof.
  intros Hrun groups L.
  assert (Hpos : 0 < BATCH) by (unfold BATCH; lia).
  assert (Hcat : List.concat groups = track_ids)
    by (apply chunked_concat; assumption).
  assert (Hgroups : List.length groups = ceil_div L 100)
    by (apply (chunked_length track_ids Hpos)).
  split; [assumption|].
  split; [apply (chunked_sizes track_ids Hpos)|].
  split; [apply (chunked_seq track_ids Hpos)|].
  assert (Hprot :
    exists oks last,
      request_outcomes t = oks ++ last /\
      map fst (oks ++ last) = firstn (List.length (oks ++ last)) groups /\
      Forall (fun bo => answered (snd bo) = true) oks /\
      served sp s (oks ++ last) s' /\
      ((last = [] /\
        List.length oks = ceil_div L 100 /\
        r = Returns (Some (flat_map (fun bo => outcome_items (snd bo)) oks)))
       \/
       (exists b o,
           last = [(b, o)] /\ answered o = false /\ r = failure_result o))).
  { pose proof (fetch_batches_protocol groups [] s) as H.
    unfold safe_audio_features in Hrun. fold groups in Hrun.
    rewrite Hrun in H.
    destruct H as (oks & last & Hreq & Hpre & Hoks & Hserved & Hend).
    exists oks, last. rewrite <- Hgroups. auto. }
  split; [exact Hprot|].
  split.
  { pose proof (safe_audio_features_requests_bound track_ids s) as H.
    rewrite Hrun in H. exact H. }
  split.
  { intros Hall.
    destruct Hprot as (oks & last & Hreq & _ & _ & _ & Hend).
    rewrite feature_requests_outcomes, length_map, Hreq.
    destruct Hend as [(-> & Hlen & _)|(b & o & -> & Ho & _)].
    - rewrite app_nil_r. assumption.
    - exfalso. rewrite Hreq in Hall. rewrite Forall_forall in Hall.
      specialize (Hall (b, o)). simpl in Hall.
      rewrite Hall in Ho; [discriminate|].
      apply in_or_app. right. left. reflexivity. }
  intros resps s1 Hall.
  unfold safe_audio_features in Hrun. fold groups in Hrun.
  rewrite (fetch_batches_all_succeed Hall) in Hrun.
  injection Hrun as <- <- <-.
  assert (Hreq : feature_requests (success_trace groups resps) = groups)
    by (apply feature_requests_success, (all_succeed_length Hall)).
  split; [reflexivity|]. split; [reflexivity|]. split; [assumption|].
  split; [rewrite Hreq; assumption|].
  split.
  - intros Hlen. rewrite (concat_lengths Hlen), Hcat. reflexivity.
  - intros Hids. rewrite (concat_ids Hids). assumption.
Qed.

(** C2.  If a feature request of the run raised a service error, the
    fetcher returns the failure signal [None]: not a list of records,
    neither a partial one nor the empty one. *)
Theorem safe_audio_features_service_error
    (track_ids : list value) (s : S) (b : list value) (status : Z) (msg : string) :
  In (ApiAudioFeatures b (Raises (SpotifyException status msg)))
     (snd (safe_audio_features sp track_ids s)) ->
  fst (fst (safe_audio_features sp track_ids s)) = Returns None /\
  (forall l, fst (fst (safe_audio_features sp track_ids s)) <> Returns (Some l)).
Proof.
  intros Hin. unfold safe_audio_features in *.
  pose proof (fetch_batches_raised sp (chunked track_ids BATCH) [] s b
                (SpotifyException status msg)) as H.
  destruct (fetch_batches sp (chunked track_ids BATCH) [] s) as [[r s1] t].
  simpl in *. rewrite (H Hin). split; [reflexivity | discriminate].
Qed.

(** C9 at the fetcher.  A feature request that raised anything but a
    service error ends the fetcher with that exception; and the failure
    signal is returned only after a request that raised a service error. *)
Lemma safe_audio_features_other_error
    (track_ids : list value) (s : S) (b : list value) (e : exn) :
  In (ApiAudioFeatures b (Raises e)) (snd (safe_audio_features sp track_ids s)) ->
  is_SpotifyException e = false ->
  fst (fst (safe_audio_features sp track_ids s)) = Raises e.
Proof.
  intros Hin He. unfold safe_audio_features in *.
  pose proof (fetch_batches_raised sp (chunked track_ids BATCH) [] s b e) as H.
  destruct (fetch_batches sp (chunked track_ids BATCH) [] s) as [[r s1] t].
  simpl in *. rewrite (H Hin), He. reflexivity.
Qed.

Lemma safe_audio_features_none_only_service_error
    (track_ids : list value) (s : S) :
  fst (fst (safe_audio_features sp track_ids s)) = Returns None ->
  exists b e,
    In (ApiAudioFeatures b (Raises e)) (snd (safe_audio_features sp track_ids s))
    /\ is_SpotifyException e = true.
Proof.
  unfold safe_audio_features.
  pose proof (fetch_batches_none sp (chunked track_ids BATCH) [] s) as H.
  destruct (fetch_batches sp (chunked track_ids BATCH) [] s) as [[r s1] t].
  exact H.
Qed.

End FetcherClaims.

Lemma safe_audio_features_all_success_witness :
  let ids := sample_ids 101 in
  let sv := double_service (honest []) in
  exists t,
    safe_audio_features sv ids 0
    = (Returns (Some (map features_for ids)), 2, t) /\
    List.length (feature_requests t) = 2 /\
    map record_id (map features_for ids) = ids.
Proof.
  intros ids sv.
  assert (H1 : all_succeed sv 0 (chunked ids BATCH)
                 (map (map features_for) (chunked ids BATCH)) 2).
  { vm_compute. repeat (econstructor; [reflexivity|]). constructor. }
  assert (H2 : Forall2 (fun g r => map record_id r = g) (chunked ids BATCH)
                 (map (map features_for) (chunked ids BATCH))).
  { vm_compute. repeat constructor. }
  destruct (safe_audio_features sv ids 0) as [[r s'] t] eqn:E.
  destruct (@safe_audio_features_all_success nat sv ids 0 s' r t E)
    as (_ & _ & _ & _ & _ & _ & Hall).
  destruct (Hall _ 2 H1) as (Hr & Hs & _ & Hn & _ & Hids).
  exists t. split; [rewrite Hr, Hs; reflexivity|].
  split; [exact Hn | exact (Hids H2)].
Defined.

(** C1 as stated fails twice.  With 101 ids and a first request that
    raises a service error, one request is made, not ceil(101/100) = 2.
    With one id and a service that answers the request with the empty
    list, every request succeeds and the returned list has length 0. *)
Lemma safe_audio_features_counterexample :
  (List.length
     (feature_requests
        (snd (safe_audio_features
                (double_service (failing [] 0 RATE_LIMITED)) (sample_ids 101) 0)))
   = 1 /\
   ceil_div (List.length (sample_ids 101)) 100 = 2 /\
   1 <> 2) /\
  (safe_audio_features (double_service (silent [])) [VStr "t0"] 0
   = (Returns (Some []), 1,
      [ApiAudioFeatures [VStr "t0"] (Returns (VList [])); Sleep 100]) /\
   List.length (@nil value) <> List.length [VStr "t0"]).
Proof.
  split; [split; [|split]; try (vm_compute; reflexivity); discriminate|].
  split; [vm_compute; reflexivity | simpl; discriminate].
Qed.

Lemma safe_audio_features_service_error_witness :
  fst (fst (safe_audio_features
              (double_service (failing [] 1 RATE_LIMITED)) (sample_ids 101) 0))
  = Returns None /\
  (forall l,
      fst (fst (safe_audio_features
                  (double_service (failing [] 1 RATE_LIMITED)) (sample_ids 101) 0))
      <> Returns (Some l)).
Proof.
  apply (@safe_audio_features_service_error nat
           (double_service (failing [] 1 RATE_LIMITED)) (sample_ids 101) 0
           (skipn 100 (sample_ids 101)) 429%Z "API rate limit exceeded").
  vm_compute. right. right. left. reflexivity.
Defined.

(** ** The pause between feature requests *)

Lemma success_trace_cons g groups r resps :
  success_trace (g :: groups) (r :: resps)
  = ApiAudioFeatures g (Returns (VList r)) :: Sleep PAUSE_MS
      :: success_trace groups resps.
Proof. reflexivity. Qed.

Lemma success_trace_pause_before groups :
  forall resps pre g r post,
    success_trace groups resps = pre ++ ApiAudioFeatures g r :: post ->
    pre <> [] ->
    exists pre', pre = pre' ++ [Sleep PAUSE_MS].
Proof.
  induction groups as [|g0 groups IH]; intros [|r0 resps] pre g r post E Hpre;
    try (destruct pre; discriminate).
  rewrite success_trace_cons in E.
  destruct pre as [|e1 pre]; [congruence|].
  destruct pre as [|e2 pre]; [discriminate|].
  simpl in E. injection E as E1 E2 E3. subst e1 e2.
  destruct pre as [|e3 pre].
  - exists [ApiAudioFeatures g0 (Returns (VList r0))]. reflexivity.
  - destruct (IH resps (e3 :: pre) g r post E3) as [pre' Hpre']; [discriminate|].
    exists (ApiAudioFeatures g0 (Returns (VList r0)) :: Sleep PAUSE_MS :: pre').
    rewrite Hpre'. reflexivity.
Qed.

Lemma success_trace_ends_with_pause groups :
  forall resps,
    List.length groups = List.length resps ->
    groups <> [] ->
    exists pre, success_trace groups resps = pre ++ [Sleep PAUSE_MS].
Proof.
  induction groups as [|g groups IH]; intros [|r resps] Hlen Hne;
    try discriminate; [congruence|].
  rewrite success_trace_cons.
  destruct groups as [|g' groups].
  - destruct resps; [|discriminate].
    exists [ApiAudioFeatures g (Returns (VList r))]. reflexivity.
  - destruct (IH resps) as [pre Hpre]; [simpl in *; lia | discriminate |].
    exists (ApiAudioFeatures g (Returns (VList r)) :: Sleep PAUSE_MS :: pre).
    rewrite Hpre. reflexivity.
Qed.

Lemma success_trace_pauses groups :
  forall resps,
    List.length groups = List.length resps ->
    List.length (filter is_pause (success_trace groups resps))
    = List.length groups.
Proof.
  induction groups as [|g groups IH]; intros [|r resps] Hlen;
    try discriminate; [reflexivity|].
  rewrite success_trace_cons. simpl in *. rewrite IH by lia. reflexivity.
Qed.

(** C8, as amended.  In an all-success run the trace is: request, pause of
    100 ms, request, pause, ..., request, pause.  So a pause comes right
    before every feature request but the first, there are as many pauses
    as groups, and the last pause comes after the final request. *)
Theorem safe_audio_features_pauses
    (S : Type) (sp : Spotify S)
    (track_ids : list value) (resps : list (list value)) (s s' : S) :
  all_succeed sp s (chunked track_ids BATCH) resps s' ->
  let t := snd (safe_audio_features sp track_ids s) in
  t = success_trace (chunked track_ids BATCH) resps /\
  (forall pre g r post,
      t = pre ++ ApiAudioFeatures g r :: post ->
      pre <> [] ->
      exists pre', pre = pre' ++ [Sleep 100]) /\
  List.length (filter is_pause t) = List.length (chunked track_ids BATCH) /\
  (track_ids <> [] -> exists pre, t = pre ++ [Sleep 100]).
Proof.
  intros Hrun t.
  assert (Ht : t = success_trace (chunked track_ids BATCH) resps).
  { unfold t, safe_audio_features.
    rewrite (fetch_batches_all_succeed Hrun). reflexivity. }
  pose proof (all_succeed_length Hrun) as Hlen.
  split; [assumption|]. rewrite Ht.
  split; [intros pre g r post; apply success_trace_pause_before|].
  split; [apply success_trace_pauses; assumption|].
  intros Hne. apply success_trace_ends_with_pause; [assumption|].
  intros Hnil. apply Hne.
  rewrite <- (@chunked_concat _ track_ids BATCH) by (unfold BATCH; lia).
  rewrite Hnil. reflexivity.
Qed.

Lemma safe_audio_features_pauses_witness :
  let ids := sample_ids 101 in
  let t := snd (safe_audio_features (double_service (honest [])) ids 0) in
  List.length (filter is_pause t) = 2 /\
  exists pre, t = pre ++ [Sleep 100].
Proof.
  intros ids t.
  assert (H1 : all_succeed (double_service (honest [])) 0 (chunked ids BATCH)
                 (map (map features_for) (chunked ids BATCH)) 2).
  { vm_compute. repeat (econstructor; [reflexivity|]). constructor. }
  destruct (@safe_audio_features_pauses nat _ ids _ 0 2 H1)
    as (_ & _ & Hn & Hlast).
  split; [exact Hn | apply Hlast; discriminate].
Defined.

(** C8 as stated fails: with 101 ids, two groups and every request
    answered, the run pauses after the second, final request too. *)
Lemma safe_audio_features_pause_counterexample :
  let ids := sample_ids 101 in
  let t := snd (safe_audio_features (double_service (honest [])) ids 0) in
  List.length (chunked ids BATCH) = 2 /\
  t = [ApiAudioFeatures (firstn 100 ids)
         (Returns (VList (map features_for (firstn 100 ids))));
       Sleep 100;
       ApiAudioFeatures (skipn 100 ids)
         (Returns (VList (map features_for (skipn 100 ids))));
       Sleep 100] /\
  List.length (filter is_pause t) = 2.
Proof. repeat split; vm_compute; reflexivity. Qed.

(** ** What a computation can emit *)

Section EmitsOnly.

Variable S : Type.
Variable P : event -> bool.

Lemma emits_only_ret A (a : A) : emits_only P (@ret S A a).
Proof. intros s. reflexivity. Qed.

Lemma emits_only_raise A (e : exn) : emits_only P (@raise S A e).
Proof. intros s. reflexivity. Qed.

Lemma emits_only_lift A (o : outcome A) : emits_only P (@lift S A o).
Proof. intros s. reflexivity. Qed.

Lemma emits_only_emit (e : event) : P e = true -> emits_only P (@emit S e).
Proof. intros He s. simpl. rewrite He. reflexivity. Qed.

Lemma emits_only_request A (call : S -> outcome A * S) (ev : outcome A -> event) :
  (forall r, P (ev r) = true) -> emits_only P (request call ev).
Proof.
  intros Hev s. unfold request. destruct (call s) as [r s1]. simpl.
  rewrite Hev. reflexivity.
Qed.

Lemma emits_only_bind A B (m : M S A) (f : A -> M S B) :
  emits_only P m -> (forall a, emits_only P (f a)) -> emits_only P (bind m f).
Proof.
  intros Hm Hf s. unfold bind. specialize (Hm s).
  destruct (m s) as [[[a|e] s1] t1]; simpl in *; [|assumption].
  specialize (Hf a s1). destruct (f a s1) as [[r s2] t2]. simpl in *.
  rewrite forallb_app, Hm, Hf. reflexivity.
Qed.

Lemma emits_only_try_except A (m : M S A) caught (h : exn -> M S A) :
  emits_only P m -> (forall e, emits_only P (h e)) ->
  emits_only P (try_except m caught h).
Proof.
  intros Hm Hh s. unfold try_except. specialize (Hm s).
  destruct (m s) as [[[a|e] s1] t1]; simpl in *; [assumption|].
  destruct (caught e); [|assumption].
  specialize (Hh e s1). destruct (h e s1) as [[r s2] t2]. simpl in *.
  rewrite forallb_app, Hm, Hh. reflexivity.
Qed.

End EmitsOnly.

Ltac emits_step :=
  first
    [ apply emits_only_ret
    | apply emits_only_raise
    | apply emits_only_lift
    | apply emits_only_emit; reflexivity
    | apply emits_only_request; intros; reflexivity
    | apply emits_only_bind; [|intros]
    | apply emits_only_try_except; [|intros]
    | match goal with
      | |- emits_only _ (if ?b then _ else _) => destruct b
      | |- emits_only _ (match ?x with _ => _ end) => destruct x
      end ].

Ltac emits := repeat emits_step.

Section Emissions.

Variable S : Type.
Variable sp : Spotify S.

Lemma search_artist_emits P name :
  (forall q r, P (ApiSearch q r) = true) ->
  emits_only P (search_artist sp name).
Proof. intros HP. unfold search_artist. emits. apply emits_only_request. intros; apply HP. Qed.

Lemma artist_top_tracks_in_market_emits P artist_id market :
  (forall r, P (ApiTopTracks artist_id market r) = true) ->
  emits_only P (artist_top_tracks_in_market sp artist_id market).
Proof.
  intros HP. unfold artist_top_tracks_in_market. emits.
  apply emits_only_request. intros; apply HP.
Qed.

Lemma fetch_batches_no_plot groups :
  forall all_feats, emits_only not_plot (fetch_batches sp groups all_feats).
Proof.
  induction groups as [|batch rest IH]; intros all_feats; simpl.
  - emits.
  - unfold fetch_batch. emits. apply IH.
Qed.

Lemma analyze_artist_no_plot name market :
  emits_only not_plot (analyze_artist sp name market).
Proof.
  unfold analyze_artist.
  apply emits_only_bind; [apply search_artist_emits; reflexivity|].
  intros artist. destruct (negb (truthy artist)); [emits|].
  apply emits_only_bind; [emits|intros artist_id].
  apply emits_only_bind; [emits|intros artist_name].
  apply emits_only_bind; [emits|intros _].
  apply emits_only_bind;
    [apply artist_top_tracks_in_market_emits; reflexivity|].
  intros top_tracks. destruct (negb (truthy top_tracks)); [emits|].
  apply emits_only_bind; [emits|intros mi].
  apply emits_only_bind; [apply fetch_batches_no_plot|intros feats].
  emits.
Qed.

End Emissions.

(** ** The artist resolver *)

Section Resolver.

Variable S : Type.
Variable sp : Spotify S.


(** C5.  When the search yields zero items, [search_artist] returns
    [None]; [analyze_artist] then returns no table, and the search is the
    only request of the run: no top-tracks and no feature request. *)
Theorem analyze_artist_not_found
    (artist_name market : string) (res artists : value) (s s1 : S) :
  sp_search sp ("artist:" ++ artist_name)%string s = (Returns res, s1) ->
  py_get res "artists" (VDict []) = Returns artists ->
  py_get artists "items" (VList []) = Returns (VList []) ->
  let q := ("artist:" ++ artist_name)%string in
  search_artist sp artist_name s = (Returns VNone, s1, [ApiSearch q (Returns res)]) /\
  analyze_artist sp artist_name market s
  = (Returns None, s1,
     [ApiSearch q (Returns res);
      Print [PStr "Artist not found:"; PStr artist_name]]) /\
  filter is_api_call (snd (analyze_artist sp artist_name market s))
  = [ApiSearch q (Returns res)].
Proof.
  intros Hcall Hartists Hitems q.
  assert (H : search_artist sp artist_name s
              = (Returns VNone, s1, [ApiSearch q (Returns res)])).
  { unfold search_artist, bind, request, lift, first_artist.
    rewrite Hcall. simpl. rewrite Hartists. simpl. rewrite Hitems.
    reflexivity. }
  assert (H' : analyze_artist sp artist_name market s
               = (Returns None, s1,
                  [ApiSearch q (Returns res);
                   Print [PStr "Artist not found:"; PStr artist_name]])).
  { unfold analyze_artist. unfold bind at 1. rewrite H. reflexivity. }
  split; [assumption|]. split; [assumption|].
  rewrite H'. reflexivity.
Qed.

(** An empty list of top tracks ends the run without a table as well. *)
Lemma analyze_artist_no_top_tracks
    (artist_name market : string) (artist artist_id name top_tracks : value)
    (s s1 s2 : S) (t1 t2 : list event) :
  search_artist sp artist_name s = (Returns artist, s1, t1) ->
  truthy artist = true ->
  py_getitem artist "id" = Returns artist_id ->
  py_getitem artist "name" = Returns name ->
  artist_top_tracks_in_market sp artist_id market s1 = (Returns top_tracks, s2, t2) ->
  truthy top_tracks = false ->
  fst (analyze_artist sp artist_name market s) = (Returns None, s2).
Proof.
  intros Hsearch Hartist Hid Hname Htop Hempty.
  unfold analyze_artist. unfold bind at 1. rewrite Hsearch, Hartist. simpl.
  unfold bind at 1. rewrite Hid. simpl.
  unfold bind at 1. rewrite Hname. simpl.
  unfold bind at 1. simpl.
  unfold bind at 1. rewrite Htop, Hempty. reflexivity.
Qed.

(** ** The entry point *)

(** C7.  When [analyze_artist] produces no table, the entry point raises
    [SystemExit] with a message: the process exits with status 1 and the
    message "No data returned.", and the run has shown no plot. *)
Theorem main_no_data (s s' : S) (t : list event) :
  analyze_artist sp "Arijit Singh" "IN" s = (Returns None, s', t) ->
  main sp s = (Raises (SystemExit "No data returned."), s', t) /\
  exit_status (fst (fst (main sp s))) <> 0%Z /\
  exit_message (fst (fst (main sp s))) = Some "No data returned." /\
  forall df, ~ In (FigShow df) (snd (main sp s)).
Proof.
  intros Hrun.
  assert (H : main sp s = (Raises (SystemExit "No data returned."), s', t)).
  { unfold main, bind, raise. rewrite Hrun. rewrite app_nil_r. reflexivity. }
  rewrite H. simpl.
  split; [reflexivity|]. split; [discriminate|]. split; [reflexivity|].
  intros df Hin.
  pose proof (analyze_artist_no_plot sp "Arijit Singh" "IN" s) as Hno.
  rewrite Hrun in Hno. simpl in Hno.
  rewrite forallb_forall in Hno. specialize (Hno _ Hin). discriminate.
Qed.

End Resolver.



Lemma analyze_artist_not_found_witness :
  analyze_artist (double_service (answering search_miss)) "Nobody" "IN" 0
  = (Returns None, 0,
     [ApiSearch "artist:Nobody" (Returns search_miss);
      Print [PStr "Artist not found:"; PStr "Nobody"]]).
Proof.
  apply (@analyze_artist_not_found nat (double_service (answering search_miss))
           "Nobody" "IN" search_miss (VDict [("items", VList [])]) 0 0);
    reflexivity.
Defined.

Lemma main_no_data_witness :
  exit_status (fst (fst (main (double_service (answering search_miss)) 0))) <> 0%Z.
Proof.
  apply (@main_no_data nat (double_service (answering search_miss)) 0 0
           [ApiSearch "artist:Arijit Singh" (Returns search_miss);
            Print [PStr "Artist not found:"; PStr "Arijit Singh"]]).
  reflexivity.
Defined.

(** ** The playlist paginator *)

Section Paginator.

Variable S : Type.
Variable sp : Spotify S.

Lemma page_chain_head s page pages s' :
  page_chain sp s page pages s' -> exists rest, pages = page :: rest.
Proof. destruct 1; eauto. Qed.

Lemma follow_next_chain s page pages s' :
  page_chain sp s page pages s' ->
  forall itemss acc rounds,
    Forall2 (fun p its => py_getitem p "items" = Returns (VList its))
            pages itemss ->
    List.length pages <= rounds ->
    follow_next sp rounds page (VList acc) s
    = (Returns (Some (VList (acc ++ List.concat (tl itemss)))), s',
       next_trace pages).
Proof.
  induction 1 as [s page nxt Hnext Hfalsy
                 |s page nxt page' s1 pages s' Hnext Htruthy Hcall Hchain IH];
    intros itemss acc rounds Hitems Hrounds.
  - destruct rounds as [|rounds]; [simpl in Hrounds; lia|].
    inversion Hitems as [|p its ps itss Hp Hrest]; subst.
    inversion Hrest; subst.
    simpl. unfold bind, lift. rewrite Hnext, Hfalsy. simpl.
    rewrite app_nil_r. reflexivity.
  - destruct rounds as [|rounds]; [simpl in Hrounds; lia|].
    destruct (page_chain_head Hchain) as [rest ->].
    inversion Hitems as [|p its ps itss Hp Hrest]; subst.
    inversion Hrest as [|p' its' ps' itss' Hp' Hrest']; subst.
    specialize (IH (its' :: itss') (acc ++ its') rounds Hrest).
    simpl in Hrounds.
    change (follow_next sp (Datatypes.S rounds) page (VList acc) s)
      with ((nxt0 <- lift (py_get page "next" VNone) ;;
             if truthy nxt0 then
               results' <- request (sp_next sp page) (ApiNext page) ;;
               tracks' <- lift (extend_with_items (VList acc) results') ;;
               follow_next sp rounds results' tracks'
             else ret (Some (VList acc))) s).
    unfold bind at 1. unfold lift at 1. rewrite Hnext, Htruthy.
    unfold bind at 1. unfold request at 1. rewrite Hcall.
    unfold bind at 1. unfold lift at 1. unfold extend_with_items.
    rewrite Hp'. simpl obind. cbv beta iota.
    rewrite IH by (simpl; lia).
    simpl. rewrite <- app_assoc. reflexivity.
Qed.

(** C6.  For a playlist whose pages form a finite chain, every page with
    an item list, [get_playlist_tracks] returns the item lists of all the
    pages concatenated in page order, as soon as the loop is given as
    many rounds as there are pages; it asks for the first page and then
    for the next of every page but the last. *)
Theorem get_playlist_tracks_chain
    (playlist_id : string) (first : value) (pages : list value)
    (itemss : list (list value)) (s s1 s' : S) (rounds : nat) :
  sp_playlist_items sp playlist_id s = (Returns first, s1) ->
  page_chain sp s1 first pages s' ->
  Forall2 (fun p its => py_getitem p "items" = Returns (VList its))
          pages itemss ->
  List.length pages <= rounds ->
  get_playlist_tracks sp rounds playlist_id s
  = (Returns (Some (VList (List.concat itemss))), s',
     ApiPlaylistItems playlist_id (Returns first) :: next_trace pages).
Proof.
  intros Hcall Hchain Hitems Hrounds.
  destruct (page_chain_head Hchain) as [rest ->].
  inversion Hitems as [|p its ps itss Hp Hrest]; subst.
  unfold get_playlist_tracks.
  unfold bind at 1. unfold request at 1. rewrite Hcall.
  unfold bind at 1. unfold lift at 1. rewrite Hp.
  cbv beta iota.
  rewrite (follow_next_chain Hchain its Hitems Hrounds).
  reflexivity.
Qed.

End Paginator.

Lemma get_playlist_tracks_chain_witness :
  get_playlist_tracks (double_service three_pages) 3 "playlist" 0
  = (Returns (Some (VList [VStr "a"; VStr "b"; VStr "c"; VStr "d"])), 0,
     [ApiPlaylistItems "playlist" (Returns PAGE0);
      ApiNext PAGE0 (Returns PAGE1);
      ApiNext PAGE1 (Returns PAGE2)]).
Proof.
  apply (@get_playlist_tracks_chain nat (double_service three_pages)
           "playlist" PAGE0 [PAGE0; PAGE1; PAGE2]
           [[VStr "a"; VStr "b"]; [VStr "c"]; [VStr "d"]] 0 0 0 3).
  - reflexivity.
  - eapply chain_next; [reflexivity | reflexivity | reflexivity |].
    eapply chain_next; [reflexivity | reflexivity | reflexivity |].
    eapply chain_last; reflexivity.
  - repeat constructor.
  - simpl. lia.
Defined.

(** ** The metadata table *)

Lemma obind_returns {A B} (o : outcome A) (f : A -> outcome B) (b : B) :
  obind o f = Returns b -> exists a, o = Returns a /\ f a = Returns b.
Proof. destruct o as [a|e]; simpl; [eauto | discriminate]. Qed.

Ltac obind_inv H :=
  repeat (let a := fresh "x" in
          let E := fresh "E" in
          apply obind_returns in H; destruct H as (a & E & H)).

Lemma track_row_keys (t : value) (d : dict) (id : value) :
  track_row t = Returns (d, id) ->
  dict_keys d = META_COLUMNS /\ cell d "track_id" = id.
Proof.
  unfold track_row. intros H. obind_inv H.
  injection H as <- <-. split; [reflexivity|].
  unfold cell. simpl. congruence.
Qed.

Lemma omap_returns {A B} (f : A -> outcome B) (l : list A) (ys : list B) :
  omap f l = Returns ys -> Forall2 (fun x y => f x = Returns y) l ys.
Proof.
  revert ys. induction l as [|x l IH]; intros ys H; simpl in H.
  - injection H as <-. constructor.
  - obind_inv H. injection H as <-. constructor; auto.
Qed.

Lemma track_rows_keys (ts : list value) (rs : list (dict * value)) :
  Forall2 (fun t r => track_row t = Returns r) ts rs ->
  Forall (fun d => dict_keys d = META_COLUMNS) (map fst rs) /\
  map snd rs = map (fun d => cell d "track_id") (map fst rs).
Proof.
  induction 1 as [|t [d id] ts rs Ht _ [IH1 IH2]]; simpl.
  - split; [constructor | reflexivity].
  - destruct (track_row_keys _ Ht) as [Hk Hid].
    split; [constructor; assumption|]. rewrite IH2, Hid. reflexivity.
Qed.

Lemma tracks_meta_and_ids_returns (top_tracks : value) meta ids :
  tracks_meta_and_ids top_tracks = Returns (meta, ids) ->
  Forall (fun d => dict_keys d = META_COLUMNS) meta /\
  ids = map (fun d => cell d "track_id") meta /\
  (truthy top_tracks = true -> meta <> []).
Proof.
  unfold tracks_meta_and_ids. intros H. obind_inv H.
  injection H as <- <-.
  apply omap_returns in E0.
  destruct (track_rows_keys E0) as [Hk Hids].
  split; [assumption|]. split; [assumption|].
  intros Htruthy Hnil.
  destruct E0 as [|t r ts rs Ht _]; [|discriminate].
  destruct top_tracks as [| | | |str|l|d]; simpl in E; try discriminate;
    injection E as E.
  - destruct str; discriminate.
  - subst l. discriminate.
  - destruct d; discriminate.
Qed.

Lemma fold_same_keys (ks : list string) (ds : list dict) :
  add_new_keys ks ks = ks ->
  Forall (fun d => dict_keys d = ks) ds ->
  fold_left add_new_keys (map dict_keys ds) ks = ks.
Proof.
  intros Hks. induction 1 as [|d ds Hd _ IH]; [reflexivity|].
  simpl. rewrite Hd, Hks. assumption.
Qed.

Lemma frame_of_meta (meta : list dict) :
  meta <> [] ->
  Forall (fun d => dict_keys d = META_COLUMNS) meta ->
  columns (frame_of_dicts meta) = META_COLUMNS /\
  List.length (rows (frame_of_dicts meta)) = List.length meta.
Proof.
  intros Hne Hkeys. split; [|apply length_map].
  destruct Hkeys as [|d ds Hd Hds]; [congruence|].
  unfold frame_of_dicts. simpl. rewrite Hd.
  change (add_new_keys [] META_COLUMNS) with META_COLUMNS.
  apply fold_same_keys; [reflexivity | assumption].
Qed.

Section MetadataOnly.

Variable S : Type.
Variable sp : Spotify S.

(** C4.  When the feature fetch returns the failure signal,
    [analyze_artist] returns the metadata table as it was built: its
    columns are the six metadata columns, none from the features, and it
    has one row per top track. *)
Theorem analyze_artist_metadata_only
    (artist_name market : string)
    (artist artist_id name top_tracks : value)
    (meta : list dict) (ids : list value)
    (s s1 s2 s3 : S) (t1 t2 t3 : list event) :
  search_artist sp artist_name s = (Returns artist, s1, t1) ->
  truthy artist = true ->
  py_getitem artist "id" = Returns artist_id ->
  py_getitem artist "name" = Returns name ->
  artist_top_tracks_in_market sp artist_id market s1 = (Returns top_tracks, s2, t2) ->
  truthy top_tracks = true ->
  tracks_meta_and_ids top_tracks = Returns (meta, ids) ->
  safe_audio_features sp ids s2 = (Returns None, s3, t3) ->
  let df_meta := frame_of_dicts meta in
  fst (analyze_artist sp artist_name market s) = (Returns (Some df_meta), s3) /\
  columns df_meta = META_COLUMNS /\
  List.length (rows df_meta) = List.length meta.
Proof.
  intros Hsearch Hartist Hid Hname Htop Htracks Hmeta Hfeats df_meta.
  destruct (tracks_meta_and_ids_returns _ Hmeta) as (Hkeys & _ & Hne).
  destruct (frame_of_meta (Hne Htracks) Hkeys) as [Hcols Hrows].
  split; [|split; assumption].
  unfold analyze_artist. unfold bind at 1. rewrite Hsearch, Hartist. simpl.
  unfold bind at 1. rewrite Hid. simpl.
  unfold bind at 1. rewrite Hname. simpl.
  unfold bind at 1. simpl.
  unfold bind at 1. rewrite Htop, Htracks. simpl.
  unfold bind at 1. rewrite Hmeta. simpl.
  unfold bind at 1. rewrite Hfeats. reflexivity.
Qed.

End MetadataOnly.

Lemma analyze_artist_metadata_only_witness :
  fst (analyze_artist (double_service (failing (sample_ids 2) 0 RATE_LIMITED))
         "Arijit Singh" "IN" 0)
  = (Returns
       (Some {| columns := META_COLUMNS;
                rows := [[VStr "Song"; VStr "t0"; VStr "Arijit Singh, Pritam";
                          VStr "Album"; VInt 80; VInt 240000];
                         [VStr "Song"; VStr "t1"; VStr "Arijit Singh, Pritam";
                          VStr "Album"; VInt 80; VInt 240000]] |}),
     1).
Proof.
  refine (proj1 (@analyze_artist_metadata_only nat
           (double_service (failing (sample_ids 2) 0 RATE_LIMITED))
           "Arijit Singh" "IN" sample_artist (VStr "a1") (VStr "Arijit Singh")
           (VList (map sample_track (sample_ids 2)))
           (map sample_meta (sample_ids 2)) (sample_ids 2) 0 0 0 1
           _ _ _ _ _ _ _ _ _ _ _));
    reflexivity.
Defined.

(** ** The table assembler *)

Lemma mem_string_In (k : string) (ks : list string) :
  mem_string k ks = true <-> In k ks.
Proof.
  unfold mem_string. rewrite existsb_exists. split.
  - intros (x & Hx & E). apply String.eqb_eq in E. congruence.
  - intros H. exists k. split; [assumption | apply String.eqb_refl].
Qed.

Lemma In_add_new_keys (k : string) (ks : list string) :
  forall seen, In k (add_new_keys seen ks) <-> In k seen \/ In k ks.
Proof.
  unfold add_new_keys. induction ks as [|k' ks IH]; intros seen; simpl.
  - tauto.
  - rewrite IH. destruct (mem_string k' seen) eqn:E.
    + apply mem_string_In in E. split; [tauto|].
      intros [H|[H|H]]; subst; auto.
    + rewrite in_app_iff. simpl. tauto.
Qed.

Lemma In_fold_keys (k : string) (kss : list (list string)) :
  forall seen,
    In k (fold_left add_new_keys kss seen)
    <-> In k seen \/ exists ks, In ks kss /\ In k ks.
Proof.
  induction kss as [|ks kss IH]; intros seen; simpl.
  - split; [auto | intros [H|(ks & [] & _)]; assumption].
  - rewrite IH, In_add_new_keys. split.
    + intros [[H|H]|(ks' & H1 & H2)]; eauto.
    + intros [H|(ks' & [->|H1] & H2)]; eauto.
Qed.

Lemma dict_lookup_key (k : string) (d : dict) :
  dict_lookup k d <> None -> In k (dict_keys d).
Proof.
  induction d as [|[k' v] d IH]; simpl; [congruence|].
  destruct (String.eqb_spec k k') as [->|Hne]; auto.
Qed.

Lemma column_index_In (c : string) (cols : list string) :
  In c cols -> exists j, column_index c cols = Some j.
Proof.
  induction cols as [|c' cols IH]; simpl; [intros []|].
  intros H. destruct (String.eqb_spec c c') as [->|Hne]; [eauto|].
  destruct H as [H|H]; [congruence|].
  destruct (IH H) as [j ->]. eauto.
Qed.

Lemma column_index_nth {A} (g : string -> A) (dflt : A) (c : string) :
  forall cols j,
    column_index c cols = Some j -> nth j (map g cols) dflt = g c.
Proof.
  induction cols as [|c' cols IH]; simpl; intros j H; [discriminate|].
  destruct (String.eqb_spec c c') as [->|Hne].
  - injection H as <-. reflexivity.
  - destruct (column_index c cols) as [i|]; [|discriminate].
    injection H as <-. simpl. apply IH. reflexivity.
Qed.

Lemma filter_of_map {A B} (h : A -> B) (p : B -> bool) (l : list A) :
  filter p (map h l) = map h (filter (fun x => p (h x)) l).
Proof.
  induction l as [|x l IH]; simpl; [reflexivity|].
  destruct (p (h x)); simpl; rewrite IH; reflexivity.
Qed.

(** Among records with pairwise distinct keys, a key selects nothing or
    one record. *)
Lemma filter_distinct_keys {A} (g : A -> value) (l : list A) (key : value) :
  NoDup (map g l) ->
  (filter (fun x => value_eqb key (g x)) l = [] /\
   forall x, In x l -> g x <> key) \/
  (exists x,
      filter (fun x => value_eqb key (g x)) l = [x] /\ In x l /\ g x = key /\
      forall y, In y l -> g y = key -> y = x).
Proof.
  induction l as [|x l IH]; simpl; intros Hnd.
  - left. split; [reflexivity | intros x []].
  - inversion Hnd as [|? ? Hnotin Hnd']; subst.
    destruct (value_eqb key (g x)) eqn:E.
    + apply value_eqb_eq in E. right. exists x.
      assert (Hnone : forall y, In y l -> g y <> key).
      { intros y Hy Hk. apply Hnotin. rewrite <- E, <- Hk.
        apply in_map. assumption. }
      split; [|split; [auto|split; [auto|]]].
      * f_equal. destruct (IH Hnd') as [[H _]|(y & _ & Hy & Hk & _)];
          [assumption|]. exfalso. apply (Hnone y Hy Hk).
      * intros y [->|Hy] Hk; [reflexivity|]. exfalso. apply (Hnone y Hy Hk).
    + apply value_eqb_neq in E.
      destruct (IH Hnd') as [[H Hall]|(y & H & Hy & Hk & Huniq)].
      * left. split; [assumption|]. intros z [<-|Hz]; [congruence | auto].
      * right. exists y. split; [assumption|]. split; [auto|].
        split; [assumption|]. intros z [<-|Hz] Hz'; [congruence | auto].
Qed.

Lemma Forall2_flat_map_single {A B} (R : A -> B -> Prop) (f : A -> list B) :
  forall l,
    (forall x, In x l -> exists y, f x = [y] /\ R x y) ->
    Forall2 R l (flat_map f l).
Proof.
  induction l as [|x l IH]; intros H; simpl; [constructor|].
  destruct (H x (or_introl eq_refl)) as (y & -> & Hy).
  simpl. constructor; [assumption|]. apply IH. intros z Hz. apply H.
  right. assumption.
Qed.

Lemma as_dicts_map (ds : list dict) : as_dicts (map VDict ds) = Some ds.
Proof.
  induction ds as [|d ds IH]; simpl; [reflexivity|]. rewrite IH. reflexivity.
Qed.

Lemma frame_has_id (feats : list dict) :
  feats <> [] ->
  Forall (fun f => exists id, dict_lookup "id" f = Some (VStr id)) feats ->
  exists j, column_index "id" (columns (frame_of_dicts feats)) = Some j.
Proof.
  intros Hne Hids. apply column_index_In.
  destruct Hids as [|f fs [id Hf] _]; [congruence|].
  unfold frame_of_dicts. cbn [columns]. apply In_fold_keys. right.
  exists (dict_keys f). split; [left; reflexivity|].
  apply dict_lookup_key. congruence.
Qed.

Lemma matches_of_frame (feats : list dict) (j : nat) (key : value) :
  column_index "id" (columns (frame_of_dicts feats)) = Some j ->
  matches_of key j (rows (frame_of_dicts feats))
  = map (fun f => map (cell f) (columns (frame_of_dicts feats)))
        (filter (fun f => value_eqb key (cell f "id")) feats).
Proof.
  intros Hj. unfold matches_of.
  change (rows (frame_of_dicts feats))
    with (map (fun f => map (cell f) (columns (frame_of_dicts feats))) feats).
  rewrite filter_of_map. f_equal. apply filter_ext. intros f.
  unfold key_at. rewrite (column_index_nth (cell f) VNone _ _ Hj).
  reflexivity.
Qed.

Lemma keys_compatible (lkeys rkeys : list value) :
  Forall (fun k => is_str_or_null k = true) lkeys ->
  Forall (fun k => is_str k = true) rkeys ->
  keys_incompatible lkeys rkeys = false.
Proof.
  intros Hl Hr. unfold keys_incompatible.
  assert (Hnl : number_keys lkeys = false).
  { unfold number_keys. apply andb_false_intro2.
    destruct (existsb is_num lkeys) eqn:E; [|reflexivity].
    apply existsb_exists in E. destruct E as (k & Hk & Hnum).
    rewrite Forall_forall in Hl. specialize (Hl k Hk).
    destruct k; discriminate. }
  assert (Hnr : number_keys rkeys = false).
  { unfold number_keys. apply andb_false_intro2.
    destruct (existsb is_num rkeys) eqn:E; [|reflexivity].
    apply existsb_exists in E. destruct E as (k & Hk & Hnum).
    rewrite Forall_forall in Hr. specialize (Hr k Hk).
    destruct k; discriminate. }
  rewrite Hnl, Hnr, andb_false_r. reflexivity.
Qed.

Lemma suffix_clash_distinct (labels : list string) :
  NoDup labels ->
  forall seen_orig seen orig,
    (forall l, In l labels -> ~ In l seen) ->
    suffix_clash seen_orig seen orig labels = false.
Proof.
  induction 1 as [|l labels Hl Hnd IH]; intros seen_orig seen orig Hseen.
  - destruct orig; reflexivity.
  - destruct orig as [|o orig]; [reflexivity|]. simpl.
    destruct (mem_string l seen) eqn:E.
    + apply mem_string_In in E. exfalso. apply (Hseen l); [left; reflexivity|].
      assumption.
    + simpl. apply IH. intros l' Hl' [<-|Hin]; [contradiction|].
      apply (Hseen l'); [right; assumption | assumption].
Qed.

Lemma frame_key_cells (feats : list dict) (j : nat) :
  column_index "id" (columns (frame_of_dicts feats)) = Some j ->
  map (key_at j) (rows (frame_of_dicts feats))
  = map (fun f => cell f "id") feats.
Proof.
  intros Hj.
  change (rows (frame_of_dicts feats))
    with (map (fun f => map (cell f) (columns (frame_of_dicts feats))) feats).
  rewrite map_map. apply map_ext. intros f. unfold key_at.
  apply (column_index_nth (cell f) VNone _ _ Hj).
Qed.

Lemma stored_as_float (flags : list bool) (row : list value) :
  map as_float (stored flags row) = map as_float row.
Proof.
  revert flags. induction row as [|v row IH]; intros flags; [reflexivity|].
  destruct flags as [|[|] flags]; simpl; rewrite IH; try reflexivity.
  destruct v; reflexivity.
Qed.

(** The merge goes through on string keys and labels that do not clash. *)
Lemma assemble_runs (df_meta : DataFrame) (feats : list dict) (i : nat) :
  column_index "track_id" (columns df_meta) = Some i ->
  Forall (fun row => is_str_or_null (key_at i row) = true) (rows df_meta) ->
  feats <> [] ->
  Forall (fun f => exists id, dict_lookup "id" f = Some (VStr id)) feats ->
  NoDup (map (with_suffix (columns (frame_of_dicts feats)) "_x") (columns df_meta)) ->
  NoDup (map (with_suffix (columns df_meta) "_y") (columns (frame_of_dicts feats))) ->
  exists j,
    column_index "id" (columns (frame_of_dicts feats)) = Some j /\
    assemble df_meta (map VDict feats)
    = Returns
        {| columns :=
             map (with_suffix (columns (frame_of_dicts feats)) "_x") (columns df_meta)
             ++ map (with_suffix (columns df_meta) "_y")
                    (columns (frame_of_dicts feats));
           rows :=
             flat_map
               (join_row i j (frame_of_dicts feats)
                  (float_flags (frame_of_dicts feats)
                     (some_unmatched i j df_meta (frame_of_dicts feats))))
               (rows df_meta) |}.
Proof.
  intros Hi Hkeys Hne Hids Hl Hr.
  destruct (frame_has_id Hne Hids) as [j Hj].
  exists j. split; [assumption|].
  unfold assemble, pd_DataFrame. rewrite as_dicts_map. cbn [obind].
  unfold merge_left. rewrite Hj, Hi.
  rewrite keys_compatible.
  - rewrite (suffix_clash_distinct Hl), (suffix_clash_distinct Hr);
      [reflexivity | intros l _ [] | intros l _ []].
  - apply Forall_forall. intros k Hk. apply in_map_iff in Hk.
    destruct Hk as (row & <- & Hrow).
    rewrite Forall_forall in Hkeys. apply Hkeys. assumption.
  - rewrite (frame_key_cells _ Hj). apply Forall_forall. intros k Hk.
    apply in_map_iff in Hk. destruct Hk as (f & <- & Hf).
    rewrite Forall_forall in Hids. destruct (Hids f Hf) as [id Hid].
    unfold cell. rewrite Hid. reflexivity.
Qed.

(** C3, as amended.  Take a metadata table of N rows whose track ids are
    strings or null, and a feature sequence of at least one record, each
    with a string id, the ids pairwise distinct, such that no suffix
    given to a shared column name collides with another column of its
    table.  The left outer join on track id returns N rows, in the order
    of the metadata rows.  A row whose track id matches no feature record
    is the metadata row followed by a null in every feature column; a
    row whose track id matches a record is the metadata row followed by
    that record's values, one per feature column, an integer possibly in
    the form of the float that pandas stores for it. *)
Theorem assemble_left_join (df_meta : DataFrame) (feats : list dict) (i : nat) :
  column_index "track_id" (columns df_meta) = Some i ->
  Forall (fun row => is_str_or_null (key_at i row) = true) (rows df_meta) ->
  feats <> [] ->
  Forall (fun f => exists id, dict_lookup "id" f = Some (VStr id)) feats ->
  NoDup (map (fun f => cell f "id") feats) ->
  let df_feats := frame_of_dicts feats in
  NoDup (map (with_suffix (columns df_feats) "_x") (columns df_meta)) ->
  NoDup (map (with_suffix (columns df_meta) "_y") (columns df_feats)) ->
  exists df,
    assemble df_meta (map VDict feats) = Returns df /\
    List.length (rows df) = List.length (rows df_meta) /\
    columns df
    = map (with_suffix (columns df_feats) "_x") (columns df_meta)
      ++ map (with_suffix (columns df_meta) "_y") (columns df_feats) /\
    Forall2
      (fun lrow out =>
         ((forall f, In f feats -> cell f "id" <> key_at i lrow) ->
          out = lrow ++ repeat VNone (List.length (columns df_feats))) /\
         (forall f, In f feats -> cell f "id" = key_at i lrow ->
                    exists tail,
                      out = lrow ++ tail /\
                      map as_float tail
                      = map as_float (map (cell f) (columns df_feats))))
      (rows df_meta) (rows df).
Proof.
  intros Hi Hkeys Hne Hids Hnd df_feats Hl Hr.
  destruct (@assemble_runs df_meta feats i Hi Hkeys Hne Hids Hl Hr)
    as (j & Hj & Hrun).
  eexists. split; [exact Hrun|]. cbn [rows columns].
  assert (Hrows :
    Forall2
      (fun lrow out =>
         ((forall f, In f feats -> cell f "id" <> key_at i lrow) ->
          out = lrow ++ repeat VNone (List.length (columns df_feats))) /\
         (forall f, In f feats -> cell f "id" = key_at i lrow ->
                    exists tail,
                      out = lrow ++ tail /\
                      map as_float tail
                      = map as_float (map (cell f) (columns df_feats))))
      (rows df_meta)
      (flat_map (join_row i j df_feats
                   (float_flags df_feats (some_unmatched i j df_meta df_feats)))
                (rows df_meta))).
  { apply Forall2_flat_map_single. intros lrow _.
    unfold join_row, df_feats. rewrite (@matches_of_frame feats j _ Hj).
    destruct (filter_distinct_keys (fun f => cell f "id") feats
                (key_at i lrow) Hnd)
      as [[Hnone Hall]|(x & Hone & Hx & Hk & Huniq)].
    - rewrite Hnone. simpl. eexists. split; [reflexivity|].
      split; [reflexivity|]. intros f Hf Hkey. exfalso.
      apply (Hall f Hf Hkey).
    - rewrite Hone. simpl. eexists. split; [reflexivity|].
      split.
      + intros Hall. exfalso. apply (Hall x Hx Hk).
      + intros f Hf Hkey. rewrite (Huniq f Hf Hkey). eexists.
        split; [reflexivity | apply stored_as_float]. }
  split; [symmetry; apply (Forall2_length Hrows)|].
  split; [reflexivity | assumption].
Qed.

(** With no feature record at all the feature frame has no "id" column
    and the merge raises. *)
Lemma assemble_no_record (df_meta : DataFrame) :
  assemble df_meta [] = Raises (KeyError "id").
Proof. reflexivity. Qed.

Ltac distinct_labels :=
  vm_compute; repeat (constructor; [simpl; intuition discriminate|]);
  constructor.

Lemma assemble_left_join_witness :
  let df_meta := frame_of_dicts (map sample_meta (sample_ids 3)) in
  exists df,
    assemble df_meta [features_for (VStr "t0"); features_for (VStr "t2")]
    = Returns df /\
    List.length (rows df) = 3.
Proof.
  intros df_meta.
  destruct (@assemble_left_join df_meta
              [feature_dict (VStr "t0"); feature_dict (VStr "t2")] 1)
    as (df & E & Hlen & _).
  - reflexivity.
  - repeat (constructor; [reflexivity|]). constructor.
  - discriminate.
  - repeat (constructor; [eexists; reflexivity|]). constructor.
  - simpl. constructor; [intros [H|[]]; discriminate|].
    constructor; [intros []|constructor].
  - distinct_labels.
  - distinct_labels.
  - exists df. split; [exact E | exact Hlen].
Defined.

(** C3 as stated fails when two feature records share an id.  The top
    tracks list the track "t0" twice, the feature sequence holds the
    record of "t0" once per requested id: the join pairs each of the 2
    metadata rows with both records and returns 4 rows.  The whole
    [analyze_artist] run on such top tracks returns that table. *)
Lemma assemble_counterexample :
  let df_meta := frame_of_dicts (map sample_meta [VStr "t0"; VStr "t0"]) in
  let feats := [features_for (VStr "t0"); features_for (VStr "t0")] in
  List.length (rows df_meta) = 2 /\
  (exists df,
      assemble df_meta feats = Returns df /\ List.length (rows df) = 4) /\
  (exists df s t,
      analyze_artist (double_service (honest [VStr "t0"; VStr "t0"]))
        "Arijit Singh" "IN" 0
      = (Returns (Some df), s, t) /\
      assemble df_meta feats = Returns df).
Proof.
  intros df_meta feats. split; [reflexivity|]. split.
  - eexists. split; [vm_compute; reflexivity | reflexivity].
  - eexists. eexists. eexists. split; vm_compute; reflexivity.
Qed.

(** ** Errors that are not service errors *)

Section Propagation.

Variable S : Type.
Variable sp : Spotify S.

Lemma not_emitted (P : event -> bool) (t : list event) (ev : event) :
  forallb P t = true -> P ev = false -> ~ In ev t.
Proof.
  intros Hall Hev Hin. rewrite forallb_forall in Hall.
  rewrite (Hall _ Hin) in Hev. discriminate.
Qed.

(** An event that the first part of a sequence cannot emit comes from
    the second part, which then decides the outcome. *)
Lemma bind_skip {A B} (P : event -> bool) (m : M S A) (f : A -> M S B)
    (s : S) (ev : event) :
  emits_only P m ->
  P ev = false ->
  In ev (snd (bind m f s)) ->
  exists a s1,
    In ev (snd (f a s1)) /\
    fst (fst (bind m f s)) = fst (fst (f a s1)).
Proof.
  intros Hm Hev. unfold bind. specialize (Hm s).
  destruct (m s) as [[[a|e] s1] t1]; simpl in Hm.
  - destruct (f a s1) as [[r s2] t2] eqn:E. simpl. intros Hin.
    apply in_app_or in Hin. destruct Hin as [Hin|Hin].
    + exfalso. apply (@not_emitted P _ ev Hm Hev Hin).
    + exists a, s1. rewrite E. auto.
  - simpl. intros Hin. exfalso. apply (@not_emitted P _ ev Hm Hev Hin).
Qed.

(** An event that the second part cannot emit comes from the first. *)
Lemma bind_stop {A B} (P : event -> bool) (m : M S A) (f : A -> M S B)
    (s : S) (ev : event) :
  (forall a, emits_only P (f a)) ->
  P ev = false ->
  In ev (snd (bind m f s)) ->
  In ev (snd (m s)).
Proof.
  intros Hf Hev. unfold bind.
  destruct (m s) as [[[a|e] s1] t1]; simpl; [|auto].
  specialize (Hf a s1). destruct (f a s1) as [[r s2] t2]. simpl in *.
  intros Hin. apply in_app_or in Hin. destruct Hin as [Hin|Hin]; [assumption|].
  exfalso. apply (@not_emitted P _ ev Hf Hev Hin).
Qed.

Lemma bind_raised {A B} (m : M S A) (f : A -> M S B) (s : S) (e : exn) :
  fst (fst (m s)) = Raises e -> fst (fst (bind m f s)) = Raises e.
Proof.
  unfold bind. destruct (m s) as [[[a|e'] s1] t1]; simpl; intros H;
    [discriminate H | injection H as ->; reflexivity].
Qed.

Lemma analyze_artist_feature_error
    (artist_name market : string) (s : S) (b : list value) (e : exn) :
  In (ApiAudioFeatures b (Raises e)) (snd (analyze_artist sp artist_name market s)) ->
  is_SpotifyException e = false ->
  fst (fst (analyze_artist sp artist_name market s)) = Raises e.
Proof.
  intros Hin He. unfold analyze_artist in *.
  apply (bind_skip (P := not_feature_request)) in Hin;
    [|apply search_artist_emits; reflexivity|reflexivity].
  destruct Hin as (artist & s1 & Hin & ->).
  destruct (negb (truthy artist)).
  { exfalso. simpl in Hin. destruct Hin as [H|[]]. discriminate. }
  apply (bind_skip (P := not_feature_request)) in Hin;
    [|emits|reflexivity].
  destruct Hin as (artist_id & s2 & Hin & ->).
  apply (bind_skip (P := not_feature_request)) in Hin;
    [|emits|reflexivity].
  destruct Hin as (name & s3 & Hin & ->).
  apply (bind_skip (P := not_feature_request)) in Hin;
    [|emits|reflexivity].
  destruct Hin as (u & s4 & Hin & ->).
  apply (bind_skip (P := not_feature_request)) in Hin;
    [|apply artist_top_tracks_in_market_emits; reflexivity|reflexivity].
  destruct Hin as (top_tracks & s5 & Hin & ->).
  destruct (negb (truthy top_tracks)).
  { exfalso. simpl in Hin. destruct Hin as [H|[]]. discriminate. }
  apply (bind_skip (P := not_feature_request)) in Hin;
    [|emits|reflexivity].
  destruct Hin as (mi & s6 & Hin & ->).
  apply bind_raised.
  apply (bind_stop (P := not_feature_request)) in Hin;
    [|intros feats; emits|reflexivity].
  apply (@safe_audio_features_other_error S sp _ _ _ _ Hin He).
Qed.

(** C9.  Only a service error becomes the failure signal.  A feature
    request that raises another exception [e] ends [safe_audio_features]
    with [e], and [analyze_artist] with it: the metadata-only table is
    not returned.  And when [safe_audio_features] returns [None], a
    feature request of the run raised a service error. *)
Theorem safe_audio_features_only_service_errors (b : list value) (e : exn) :
  is_SpotifyException e = false ->
  (forall track_ids s,
      In (ApiAudioFeatures b (Raises e)) (snd (safe_audio_features sp track_ids s)) ->
      fst (fst (safe_audio_features sp track_ids s)) = Raises e) /\
  (forall artist_name market s,
      In (ApiAudioFeatures b (Raises e))
         (snd (analyze_artist sp artist_name market s)) ->
      fst (fst (analyze_artist sp artist_name market s)) = Raises e) /\
  (forall track_ids s,
      fst (fst (safe_audio_features sp track_ids s)) = Returns None ->
      exists b' e',
        In (ApiAudioFeatures b' (Raises e'))
           (snd (safe_audio_features sp track_ids s)) /\
        is_SpotifyException e' = true).
Proof.
  intros He. split; [|split].
  - intros track_ids s Hin.
    apply (@safe_audio_features_other_error S sp _ _ _ _ Hin He).
  - intros artist_name market s Hin.
    apply (@analyze_artist_feature_error _ _ _ _ _ Hin He).
  - intros track_ids s. apply safe_audio_features_none_only_service_error.
Qed.

End Propagation.

Lemma safe_audio_features_only_service_errors_witness :
  fst (fst (safe_audio_features
              (double_service (failing [] 0 CONNECTION_ERROR)) (sample_ids 2) 0))
  = Raises CONNECTION_ERROR /\
  fst (fst (analyze_artist
              (double_service (failing (sample_ids 2) 0 CONNECTION_ERROR))
              "Arijit Singh" "IN" 0))
  = Raises CONNECTION_ERROR.
Proof.
  split.
  - apply (proj1 (@safe_audio_features_only_service_errors nat
                    (double_service (failing [] 0 CONNECTION_ERROR))
                    (sample_ids 2) CONNECTION_ERROR eq_refl)).
    vm_compute. left. reflexivity.
  - apply (proj1 (proj2 (@safe_audio_features_only_service_errors nat
                    (double_service (failing (sample_ids 2) 0 CONNECTION_ERROR))
                    (sample_ids 2) CONNECTION_ERROR eq_refl))).
    vm_compute. right. right. right. left. reflexivity.
Defined.

(** * Further properties *)

(** ** Groups *)

(** Every group but the last is full. *)
Theorem chunked_full_groups {A} (lst : list A) (n k : nat) :
  0 < n ->
  k + 1 < List.length (chunked lst n) ->
  List.length (nth k (chunked lst n) []) = n.
Proof.
  intros Hn Hk. rewrite chunked_length in Hk by assumption.
  rewrite chunked_seq by assumption.
  set (f := fun j => slice lst (j * n) (j * n + n)).
  rewrite (nth_indep _ [] (f 0))
    by (rewrite length_map, length_seq; lia).
  rewrite map_nth, seq_nth by lia. simpl. unfold f, slice.
  rewrite length_firstn, length_skipn.
  destruct (ceil_div_spec (List.length lst) Hn) as [_ Hc].
  assert (n * (k + 2) <= n * ceil_div (List.length lst) n)
    by (apply Nat.mul_le_mono_l; lia).
  nia.
Qed.

Lemma chunked_full_groups_witness :
  List.length (nth 1 (chunked (seq 0 250) 100) []) = 100.
Proof.
  apply (@chunked_full_groups nat (seq 0 250) 100 1); [lia|].
  vm_compute. lia.
Defined.

Lemma chunked_fits {A} (lst : list A) (n : nat) :
  lst <> [] ->
  List.length lst <= n ->
  chunked lst n = [lst].
Proof.
  intros Hne Hlen.
  assert (Hpos : 0 < List.length lst)
    by (destruct lst; [congruence | simpl; lia]).
  assert (Hn : 0 < n) by lia.
  rewrite chunked_seq by assumption.
  rewrite (@ceil_div_unique (List.length lst) n 1) by lia.
  simpl. unfold slice. simpl.
  rewrite firstn_all2 by lia. reflexivity.
Qed.

(** For [n] of at least 1, a list of 1 to [n] elements is one group, the
    list itself; the empty list has no group. *)
Theorem chunked_single_group {A} (lst : list A) (n : nat) :
  0 < n ->
  List.length lst <= n ->
  chunked lst n = match lst with
                  | [] => []
                  | _ => [lst]
                  end.
Proof.
  intros Hn Hlen. destruct lst as [|x lst]; [reflexivity|].
  apply chunked_fits; [discriminate | assumption].
Qed.

Lemma chunked_single_group_witness :
  chunked (sample_ids 10) BATCH = [sample_ids 10].
Proof.
  apply (@chunked_single_group value (sample_ids 10) BATCH);
    vm_compute; lia.
Defined.

(** ** More on the batched feature fetcher *)

Section FetcherMore.

Variable S : Type.
Variable sp : Spotify S.

(** The fetcher makes no request exactly when it is given no track id;
    it then returns the empty list, which is not the failure signal, and
    neither pauses nor prints. *)
Theorem safe_audio_features_no_request_iff_empty
    (track_ids : list value) (s : S) :
  (feature_requests (snd (safe_audio_features sp track_ids s)) = []
   <-> track_ids = []) /\
  safe_audio_features sp [] s = (Returns (Some []), s, []).
Proof.
  split; [|reflexivity]. split.
  - intros Hnone. unfold safe_audio_features in Hnone.
    pose proof (@chunked_concat _ track_ids BATCH) as Hcat.
    destruct (chunked track_ids BATCH) as [|batch rest].
    + rewrite <- Hcat by (unfold BATCH; lia). reflexivity.
    + exfalso. rewrite fetch_batches_cons, fetch_batch_run in Hnone.
      destruct (sp_audio_features sp batch s) as [[feats|e] s1].
      * destruct (py_iter feats) as [items|e']; [|discriminate].
        destruct (fetch_batches sp rest ([] ++ items) s1) as [[r s2] t2].
        discriminate.
      * destruct (is_SpotifyException e); discriminate.
  - intros ->. reflexivity.
Qed.

(** A response that cannot be iterated makes [extend] raise. *)
Lemma fetch_batches_bad_response groups :
  forall all_feats s b v e,
    let '(r, _, t) := fetch_batches sp groups all_feats s in
    In (ApiAudioFeatures b (Returns v)) t ->
    py_iter v = Raises e ->
    r = Raises TypeError.
Proof.
  induction groups as [|batch rest IH]; intros all_feats s b v e.
  - simpl. intros [].
  - rewrite fetch_batches_cons, fetch_batch_run.
    destruct (sp_audio_features sp batch s) as [[feats|e0] s1].
    + destruct (py_iter feats) as [items|e'] eqn:Hfeats.
      * specialize (IH (all_feats ++ items) s1 b v e).
        destruct (fetch_batches sp rest (all_feats ++ items) s1) as [[r s2] t2].
        simpl. intros [H|[H|H]] Hv; try discriminate; [|auto].
        injection H as _ Hfv. subst v. congruence.
      * simpl. intros _ _. reflexivity.
    + destruct (is_SpotifyException e0); simpl.
      * intros [H|[H|[H|[]]]]; discriminate.
      * intros [H|[]]. discriminate.
Qed.

(** When the service answers a feature request with something that is
    not iterable, such as None, the fetcher raises TypeError: the handler
    of service errors does not catch it, and no list is returned. *)
Theorem safe_audio_features_not_iterable
    (track_ids : list value) (s : S) (b : list value) (v : value) (e : exn) :
  In (ApiAudioFeatures b (Returns v)) (snd (safe_audio_features sp track_ids s)) ->
  py_iter v = Raises e ->
  fst (fst (safe_audio_features sp track_ids s)) = Raises TypeError.
Proof.
  intros Hin Hv. unfold safe_audio_features in *.
  pose proof (fetch_batches_bad_response (chunked track_ids BATCH) [] s b v e) as H.
  destruct (fetch_batches sp (chunked track_ids BATCH) [] s) as [[r s1] t].
  simpl in *. auto.
Qed.

(** Nothing follows a request that raised but the two prints of the
    handler. *)
Lemma fetch_batches_after_failure groups :
  forall all_feats s pre b e post,
    snd (fetch_batches sp groups all_feats s)
    = pre ++ ApiAudioFeatures b (Raises e) :: post ->
    feature_requests post = [] /\ filter is_pause post = [].
Proof.
  induction groups as [|batch rest IH]; intros all_feats s pre b e post.
  - simpl. intros H. destruct pre; discriminate.
  - rewrite fetch_batches_cons, fetch_batch_run.
    destruct (sp_audio_features sp batch s) as [[feats|e0] s1].
    + destruct (py_iter feats) as [items|e'].
      * specialize (IH (all_feats ++ items) s1).
        destruct (fetch_batches sp rest (all_feats ++ items) s1) as [[r s2] t2].
        simpl in *. intros H.
        destruct pre as [|e1 pre]; [discriminate|].
        destruct pre as [|e2 pre]; [discriminate|].
        injection H as _ _ H. apply (IH pre b e post H).
      * simpl. intros H.
        destruct pre as [|e1 pre]; [discriminate|].
        destruct pre; discriminate.
    + destruct (is_SpotifyException e0); simpl; intros H.
      * destruct pre as [|e1 pre].
        { injection H as _ _ <-. split; reflexivity. }
        destruct pre as [|e2 pre]; [discriminate|].
        destruct pre as [|e3 pre]; [discriminate|].
        destruct pre; discriminate.
      * destruct pre as [|e1 pre].
        { injection H as _ _ <-. split; reflexivity. }
        destruct pre; discriminate.
Qed.

(** A feature request that raised is the last request of the run: no
    request and no pause comes after it. *)
Theorem safe_audio_features_stops_at_failure
    (track_ids : list value) (s : S)
    (pre post : list event) (b : list value) (e : exn) :
  snd (safe_audio_features sp track_ids s)
  = pre ++ ApiAudioFeatures b (Raises e) :: post ->
  feature_requests post = [] /\ filter is_pause post = [].
Proof. apply fetch_batches_after_failure. Qed.

(** What a run that returns a list has done. *)
Lemma fetch_batches_returned groups :
  forall all_feats s l,
    let '(r, _, t) := fetch_batches sp groups all_feats s in
    r = Returns (Some l) ->
    feature_requests t = groups /\
    List.length (filter is_pause t) = List.length groups /\
    (forall b o, In (ApiAudioFeatures b o) t ->
                 exists v items, o = Returns v /\ py_iter v = Returns items) /\
    l = all_feats ++ flat_map items_of (feature_responses t).
Proof.
  induction groups as [|batch rest IH]; intros all_feats s l.
  - simpl. intros H. injection H as <-.
    split; [reflexivity|]. split; [reflexivity|].
    split; [intros b o []|]. rewrite app_nil_r. reflexivity.
  - rewrite fetch_batches_cons, fetch_batch_run.
    destruct (sp_audio_features sp batch s) as [[feats|e0] s1].
    + destruct (py_iter feats) as [items|e'] eqn:Hfeats; [|discriminate].
      specialize (IH (all_feats ++ items) s1 l).
      destruct (fetch_batches sp rest (all_feats ++ items) s1) as [[r s2] t2].
      intros Hr. destruct (IH Hr) as (Hreq & Hpause & Hok & Hl).
      simpl. rewrite Hreq, Hpause.
      split; [reflexivity|]. split; [reflexivity|]. split.
      * intros b o [H|[H|H]]; [|discriminate|eauto].
        injection H as _ <-. eauto.
      * unfold items_of at 1. rewrite Hfeats, Hl, <- app_assoc. reflexivity.
    + destruct (is_SpotifyException e0); discriminate.
Qed.

(** A returned list is never partial: when the fetcher returns a list,
    it has asked for every group, in order, every request was answered
    with something iterable, it has paused once per group, and the list
    is the elements of the answers, in the order of the requests. *)
Theorem safe_audio_features_returned_is_complete
    (track_ids : list value) (s : S) (l : list value) :
  fst (fst (safe_audio_features sp track_ids s)) = Returns (Some l) ->
  let t := snd (safe_audio_features sp track_ids s) in
  feature_requests t = chunked track_ids BATCH /\
  List.length (feature_requests t) = ceil_div (List.length track_ids) 100 /\
  List.length (filter is_pause t) = ceil_div (List.length track_ids) 100 /\
  (forall b o, In (ApiAudioFeatures b o) t ->
               exists v items, o = Returns v /\ py_iter v = Returns items) /\
  l = flat_map items_of (feature_responses t).
Proof.
  unfold safe_audio_features.
  pose proof (fetch_batches_returned (chunked track_ids BATCH) [] s l) as H.
  destruct (fetch_batches sp (chunked track_ids BATCH) [] s) as [[r s1] t].
  simpl. intros Hr. destruct (H Hr) as (Hreq & Hpause & Hok & Hl).
  assert (Hgroups : List.length (chunked track_ids BATCH)
                    = ceil_div (List.length track_ids) 100)
    by (apply chunked_length; unfold BATCH; lia).
  rewrite Hreq, Hpause, Hgroups.
  split; [reflexivity|]. split; [reflexivity|]. split; [reflexivity|].
  split; assumption.
Qed.

(** The usual case: 1 to 100 track ids go out in one request, which
    carries them all, in order. *)
Theorem safe_audio_features_single_request
    (track_ids : list value) (s : S) :
  track_ids <> [] ->
  List.length track_ids <= 100 ->
  feature_requests (snd (safe_audio_features sp track_ids s)) = [track_ids].
Proof.
  intros Hne Hlen. unfold safe_audio_features.
  rewrite (chunked_fits Hne) by (unfold BATCH; assumption).
  rewrite fetch_batches_cons, fetch_batch_run.
  destruct (sp_audio_features sp track_ids s) as [[feats|e] s1].
  - destruct (py_iter feats); reflexivity.
  - destruct (is_SpotifyException e); reflexivity.
Qed.

End FetcherMore.

Lemma safe_audio_features_not_iterable_witness :
  fst (fst (safe_audio_features
              (double_service (answering_features VNone)) (sample_ids 2) 0))
  = Raises TypeError.
Proof.
  apply (@safe_audio_features_not_iterable nat
           (double_service (answering_features VNone)) (sample_ids 2) 0
           (sample_ids 2) VNone TypeError).
  - vm_compute. left. reflexivity.
  - reflexivity.
Defined.

Lemma safe_audio_features_stops_at_failure_witness :
  feature_requests
    [Print [PStr "audio_features() failed:"; PExn RATE_LIMITED];
     Print [PStr "This could be due to Spotify restricting the audio-features endpoint for new apps."]]
  = [] /\
  filter is_pause
    [Print [PStr "audio_features() failed:"; PExn RATE_LIMITED];
     Print [PStr "This could be due to Spotify restricting the audio-features endpoint for new apps."]]
  = [].
Proof.
  apply (@safe_audio_features_stops_at_failure nat
           (double_service (failing [] 1 RATE_LIMITED)) (sample_ids 201) 0
           [ApiAudioFeatures (firstn 100 (sample_ids 201))
              (Returns (VList (map features_for (firstn 100 (sample_ids 201)))));
            Sleep 100]
           _ (firstn 100 (skipn 100 (sample_ids 201))) RATE_LIMITED).
  vm_compute. reflexivity.
Defined.

Lemma safe_audio_features_returned_is_complete_witness :
  feature_requests
    (snd (safe_audio_features (double_service (honest [])) (sample_ids 101) 0))
  = chunked (sample_ids 101) BATCH.
Proof.
  apply (@safe_audio_features_returned_is_complete nat
           (double_service (honest [])) (sample_ids 101) 0
           (map features_for (sample_ids 101))).
  vm_compute. reflexivity.
Defined.

Lemma safe_audio_features_single_request_witness :
  feature_requests
    (snd (safe_audio_features (double_service (honest [])) (sample_ids 10) 0))
  = [sample_ids 10].
Proof.
  apply safe_audio_features_single_request;
    [discriminate | vm_compute; lia].
Defined.

(** ** More on the artist resolver *)

Section ResolverMore.

Variable S : Type.
Variable sp : Spotify S.

(** Only the first search hit counts: whatever follows it in the items,
    [search_artist] returns the first item, after one request. *)
Theorem search_artist_first_hit
    (artist_name : string) (d a : dict) (x : value) (rest : list value)
    (s s1 : S) :
  sp_search sp ("artist:" ++ artist_name)%string s = (Returns (VDict d), s1) ->
  dict_lookup "artists" d = Some (VDict a) ->
  dict_lookup "items" a = Some (VList (x :: rest)) ->
  search_artist sp artist_name s
  = (Returns x, s1,
     [ApiSearch ("artist:" ++ artist_name)%string (Returns (VDict d))]).
Proof.
  intros Hcall Hartists Hitems.
  unfold search_artist, bind, request, lift, first_artist.
  rewrite Hcall. simpl. rewrite Hartists. simpl. rewrite Hitems.
  reflexivity.
Qed.

(** The defaults of the two [.get] calls cover a missing entry only: a
    response whose "artists" entry is there but is not a dict, such as
    null, makes [search_artist] raise AttributeError. *)
Theorem search_artist_artists_not_a_dict
    (artist_name : string) (d : dict) (v : value) (s s1 : S) :
  sp_search sp ("artist:" ++ artist_name)%string s = (Returns (VDict d), s1) ->
  dict_lookup "artists" d = Some v ->
  is_dict v = false ->
  search_artist sp artist_name s
  = (Raises AttributeError, s1,
     [ApiSearch ("artist:" ++ artist_name)%string (Returns (VDict d))]).
Proof.
  intros Hcall Hartists Hv.
  unfold search_artist, bind, request, lift, first_artist.
  rewrite Hcall. simpl. rewrite Hartists.
  destruct v; try discriminate; reflexivity.
Qed.

(** An "items" entry that is null, or anything falsy, is taken as no hit:
    [search_artist] returns None and does not raise. *)
Theorem search_artist_falsy_items
    (artist_name : string) (d a : dict) (items : value) (s s1 : S) :
  sp_search sp ("artist:" ++ artist_name)%string s = (Returns (VDict d), s1) ->
  dict_lookup "artists" d = Some (VDict a) ->
  dict_lookup "items" a = Some items ->
  truthy items = false ->
  fst (search_artist sp artist_name s) = (Returns VNone, s1).
Proof.
  intros Hcall Hartists Hitems Hfalsy.
  unfold search_artist, bind, request, lift, first_artist.
  rewrite Hcall. simpl. rewrite Hartists. simpl. rewrite Hitems. simpl.
  rewrite Hfalsy. reflexivity.
Qed.

(** Only the feature fetch is guarded.  An exception raised by the
    search, a service error included, ends [analyze_artist] with that
    exception, after that one request. *)
Theorem analyze_artist_search_error
    (artist_name market : string) (e : exn) (s s1 : S) :
  sp_search sp ("artist:" ++ artist_name)%string s = (Raises e, s1) ->
  analyze_artist sp artist_name market s
  = (Raises e, s1, [ApiSearch ("artist:" ++ artist_name)%string (Raises e)]).
Proof.
  intros Hcall.
  unfold analyze_artist, search_artist, bind, request. rewrite Hcall.
  reflexivity.
Qed.

(** An exception raised by the top-tracks request, a service error
    included, ends [analyze_artist] with that exception; no feature
    request is made. *)
Theorem analyze_artist_top_tracks_error
    (artist_name market : string) (artist artist_id name : value) (e : exn)
    (s s1 s2 : S) (t1 : list event) :
  search_artist sp artist_name s = (Returns artist, s1, t1) ->
  truthy artist = true ->
  py_getitem artist "id" = Returns artist_id ->
  py_getitem artist "name" = Returns name ->
  sp_artist_top_tracks sp artist_id market s1 = (Raises e, s2) ->
  analyze_artist sp artist_name market s
  = (Raises e, s2,
     t1 ++ [found_artist name artist_id;
            ApiTopTracks artist_id market (Raises e)]).
Proof.
  intros Hsearch Hartist Hid Hname Htop.
  unfold analyze_artist. unfold bind at 1. rewrite Hsearch, Hartist. simpl.
  unfold bind at 1. rewrite Hid. simpl.
  unfold bind at 1. rewrite Hname. simpl.
  unfold bind at 1. simpl.
  unfold bind at 1. unfold artist_top_tracks_in_market, bind, request.
  rewrite Htop. reflexivity.
Qed.

(** A top-tracks response with no "tracks" entry, or with an empty or
    null one, ends the run without a table after two requests, the
    search and the top tracks: no feature request is made. *)
Theorem analyze_artist_no_top_tracks_run
    (artist_name market : string) (artist artist_id name top tracks : value)
    (s s1 s2 : S) (t1 : list event) :
  search_artist sp artist_name s = (Returns artist, s1, t1) ->
  truthy artist = true ->
  py_getitem artist "id" = Returns artist_id ->
  py_getitem artist "name" = Returns name ->
  sp_artist_top_tracks sp artist_id market s1 = (Returns top, s2) ->
  py_get top "tracks" (VList []) = Returns tracks ->
  truthy tracks = false ->
  analyze_artist sp artist_name market s
  = (Returns None, s2,
     t1 ++ [found_artist name artist_id;
            ApiTopTracks artist_id market (Returns top);
            Print [PStr "No top tracks returned."]]).
Proof.
  intros Hsearch Hartist Hid Hname Htop Htracks Hfalsy.
  unfold analyze_artist. unfold bind at 1. rewrite Hsearch, Hartist. simpl.
  unfold bind at 1. rewrite Hid. simpl.
  unfold bind at 1. rewrite Hname. simpl.
  unfold bind at 1. simpl.
  unfold bind at 1. unfold artist_top_tracks_in_market, bind, request, lift.
  rewrite Htop, Htracks, Hfalsy. reflexivity.
Qed.

End ResolverMore.

Lemma search_artist_first_hit_witness :
  search_artist
    (double_service
       (answering (VDict [("artists",
                           VDict [("items", VList [sample_artist; other_artist])])])))
    "Arijit Singh" 0
  = (Returns sample_artist, 0,
     [ApiSearch "artist:Arijit Singh"
        (Returns (VDict [("artists",
                          VDict [("items", VList [sample_artist; other_artist])])]))]).
Proof.
  apply (@search_artist_first_hit nat _ "Arijit Singh"
           [("artists", VDict [("items", VList [sample_artist; other_artist])])]
           [("items", VList [sample_artist; other_artist])]
           sample_artist [other_artist] 0 0); reflexivity.
Defined.

Lemma search_artist_artists_not_a_dict_witness :
  search_artist (double_service (answering (VDict [("artists", VNone)])))
    "Arijit Singh" 0
  = (Raises AttributeError, 0,
     [ApiSearch "artist:Arijit Singh" (Returns (VDict [("artists", VNone)]))]).
Proof.
  apply (@search_artist_artists_not_a_dict nat _ "Arijit Singh"
           [("artists", VNone)] VNone 0 0); reflexivity.
Defined.

Lemma search_artist_falsy_items_witness :
  fst (search_artist
         (double_service
            (answering (VDict [("artists", VDict [("items", VNone)])])))
         "Arijit Singh" 0)
  = (Returns VNone, 0).
Proof.
  apply (@search_artist_falsy_items nat _ "Arijit Singh"
           [("artists", VDict [("items", VNone)])] [("items", VNone)]
           VNone 0 0); reflexivity.
Defined.

Lemma analyze_artist_search_error_witness :
  analyze_artist (with_errors (Some RATE_LIMITED) None None (honest []))
    "Arijit Singh" "IN" 0
  = (Raises RATE_LIMITED, 0,
     [ApiSearch "artist:Arijit Singh" (Raises RATE_LIMITED)]).
Proof.
  apply (@analyze_artist_search_error nat
           (with_errors (Some RATE_LIMITED) None None (honest []))
           "Arijit Singh" "IN" RATE_LIMITED 0 0).
  reflexivity.
Defined.

Lemma analyze_artist_top_tracks_error_witness :
  analyze_artist
    (with_errors None (Some RATE_LIMITED) None (honest (sample_ids 2)))
    "Arijit Singh" "IN" 0
  = (Raises RATE_LIMITED, 0,
     [ApiSearch "artist:Arijit Singh" (Returns (search_hit sample_artist));
      found_artist (VStr "Arijit Singh") (VStr "a1");
      ApiTopTracks (VStr "a1") "IN" (Raises RATE_LIMITED)]).
Proof.
  apply (@analyze_artist_top_tracks_error nat
           (with_errors None (Some RATE_LIMITED) None (honest (sample_ids 2)))
           "Arijit Singh" "IN" sample_artist (VStr "a1") (VStr "Arijit Singh")
           RATE_LIMITED 0 0 0
           [ApiSearch "artist:Arijit Singh" (Returns (search_hit sample_artist))]);
    reflexivity.
Defined.

Lemma analyze_artist_no_top_tracks_run_witness :
  analyze_artist (double_service (answering (search_hit sample_artist)))
    "Arijit Singh" "IN" 0
  = (Returns None, 0,
     [ApiSearch "artist:Arijit Singh" (Returns (search_hit sample_artist));
      found_artist (VStr "Arijit Singh") (VStr "a1");
      ApiTopTracks (VStr "a1") "IN" (Returns (top_tracks_of []));
      Print [PStr "No top tracks returned."]]).
Proof.
  apply (@analyze_artist_no_top_tracks_run nat
           (double_service (answering (search_hit sample_artist)))
           "Arijit Singh" "IN" sample_artist (VStr "a1") (VStr "Arijit Singh")
           (top_tracks_of []) (VList []) 0 0 0
           [ApiSearch "artist:Arijit Singh" (Returns (search_hit sample_artist))]);
    reflexivity.
Defined.

(** ** More on the metadata table *)

(** What a track must hold for its metadata record, and what the record
    holds: "artists", "name", "id" and "album" are required, the album
    needs a "name", "popularity" and "duration_ms" are optional and give
    a null cell when missing; the record has the six metadata columns and
    the id put on [track_ids] is its "track_id" cell. *)
Theorem track_row_returns (t : value) (row : dict) (id : value) :
  track_row t = Returns (row, id) ->
  exists d,
    t = VDict d /\
    dict_keys row = META_COLUMNS /\
    dict_lookup "name" d = Some (cell row "track_name") /\
    dict_lookup "id" d = Some id /\
    cell row "track_id" = id /\
    (exists album,
        dict_lookup "album" d = Some album /\
        py_getitem album "name" = Returns (cell row "album")) /\
    (exists artists names joined,
        dict_lookup "artists" d = Some artists /\
        py_iter artists = Returns names /\
        omap (fun a => py_getitem a "name") names = Returns joined /\
        exists str, py_join ", " joined = Returns str /\
                    cell row "artists" = VStr str) /\
    cell row "popularity" = cell d "popularity" /\
    cell row "duration_ms" = cell d "duration_ms".
Proof.
  unfold track_row. intros H. obind_inv H. injection H as <- <-.
  destruct t as [| | | | | |d]; try discriminate.
  exists d. simpl in *.
  split; [reflexivity|]. split; [reflexivity|].
  assert (Hget : forall k v, match dict_lookup k d with
                             | Some x => Returns x
                             | None => Raises (KeyError k)
                             end = Returns v -> dict_lookup k d = Some v).
  { intros k v. destruct (dict_lookup k d); congruence. }
  assert (Hopt : forall k v, match dict_lookup k d with
                             | Some x => Returns x
                             | None => Returns VNone
                             end = Returns v -> cell d k = v).
  { intros k v. unfold cell. destruct (dict_lookup k d); congruence. }
  split; [apply Hget; assumption|].
  split; [apply Hget; assumption|].
  split; [unfold cell; simpl; apply Hget in E4, E9; congruence|].
  split; [exists x5; split; [apply Hget|]; assumption|].
  split.
  { exists x, x0, x1. split; [apply Hget; assumption|].
    split; [assumption|]. split; [assumption|]. exists x2. auto. }
  split; symmetry; apply Hopt; assumption.
Qed.

Lemma track_row_returns_witness :
  exists d,
    sample_track (VStr "t0") = VDict d /\
    dict_lookup "id" d = Some (VStr "t0") /\
    cell (sample_meta (VStr "t0")) "popularity" = cell d "popularity".
Proof.
  destruct (@track_row_returns (sample_track (VStr "t0"))
              (sample_meta (VStr "t0")) (VStr "t0") eq_refl)
    as (d & Ht & _ & _ & Hid & _ & _ & _ & Hpop & _).
  exists d. split; [exact Ht|]. split; [exact Hid | exact Hpop].
Defined.



(** ** More on the table assembler *)

Lemma join_row_shape (i j : nat) (right : DataFrame) (flags : list bool)
    (lrow : list value) :
  join_row i j right flags lrow <> [] /\
  forall out,
    In out (join_row i j right flags lrow) ->
    out = lrow ++ repeat VNone (List.length (columns right)) \/
    exists r, In r (rows right) /\ out = lrow ++ stored flags r.
Proof.
  unfold join_row.
  destruct (matches_of (key_at i lrow) j (rows right)) as [|m ms] eqn:E.
  - split; [discriminate|]. intros out [<-|[]]. left. reflexivity.
  - split; [discriminate|]. intros out Hout. right.
    apply in_map_iff in Hout. destruct Hout as (r & <- & Hr).
    exists r. split; [|reflexivity].
    assert (Hin : In r (matches_of (key_at i lrow) j (rows right)))
      by (rewrite E; assumption).
    unfold matches_of in Hin. apply filter_In in Hin. tauto.
Qed.

Lemma flat_map_at_least {A B} (f : A -> list B) (l : list A) :
  (forall x, f x <> []) -> List.length l <= List.length (flat_map f l).
Proof.
  intros Hf. induction l as [|x l IH]; simpl; [lia|].
  rewrite length_app. specialize (Hf x).
  destruct (f x); [congruence | simpl; lia].
Qed.

Lemma assemble_returns (df_meta : DataFrame) (feats : list value) (df : DataFrame) :
  assemble df_meta feats = Returns df ->
  exists right i j flags,
    rows df = flat_map (join_row i j right flags) (rows df_meta).
Proof.
  unfold assemble. intros H.
  destruct (pd_DataFrame feats) as [right|e]; [|discriminate].
  cbn [obind] in H. unfold merge_left in H.
  destruct (column_index "id" (columns right)) as [j|]; [|discriminate].
  destruct (column_index "track_id" (columns df_meta)) as [i|];
    [|discriminate].
  destruct (keys_incompatible _ _); [discriminate|].
  destruct (_ || _); [discriminate|].
  injection H as <-. eexists right, i, j, _. reflexivity.
Qed.

(** The join never drops a metadata row and never invents one: the table
    has at least as many rows as the metadata table, every metadata row
    starts some row of it, and every row of it starts with a metadata
    row. *)
Theorem assemble_keeps_metadata_rows
    (df_meta : DataFrame) (feats : list value) (df : DataFrame) :
  assemble df_meta feats = Returns df ->
  List.length (rows df_meta) <= List.length (rows df) /\
  (forall lrow, In lrow (rows df_meta) ->
                exists tail, In (lrow ++ tail) (rows df)) /\
  (forall out, In out (rows df) ->
               exists lrow tail, In lrow (rows df_meta) /\ out = lrow ++ tail).
Proof.
  intros H. destruct (assemble_returns _ _ H) as (right & i & j & flags & ->).
  split; [|split].
  - apply flat_map_at_least. intros lrow. apply join_row_shape.
  - intros lrow Hin.
    destruct (join_row_shape i j right flags lrow) as [Hne Hshape].
    destruct (join_row i j right flags lrow) as [|out outs] eqn:E;
      [congruence|].
    assert (Hout : In out (flat_map (join_row i j right flags) (rows df_meta))).
    { apply in_flat_map. exists lrow. split; [assumption|].
      rewrite E. left. reflexivity. }
    destruct (Hshape out (or_introl eq_refl)) as [->|(r & _ & ->)]; eauto.
  - intros out Hout. apply in_flat_map in Hout.
    destruct Hout as (lrow & Hin & Hout).
    destruct (join_row_shape i j right flags lrow) as [_ Hshape].
    destruct (Hshape out Hout) as [->|(r & _ & ->)]; eauto.
Qed.

Lemma assemble_keeps_metadata_rows_witness :
  exists df,
    assemble (frame_of_dicts (map sample_meta (sample_ids 3)))
      [features_for (VStr "t1")]
    = Returns df /\
    3 <= List.length (rows df).
Proof.
  eexists. split; [vm_compute; reflexivity|].
  apply (proj1 (@assemble_keeps_metadata_rows
                  (frame_of_dicts (map sample_meta (sample_ids 3)))
                  [features_for (VStr "t1")] _ eq_refl)).
Defined.

(** ** The whole example *)

Lemma with_suffix_other (other : list string) (sfx c : string) :
  ~ In c other -> with_suffix other sfx c = c.
Proof.
  intros Hc. unfold with_suffix.
  destruct (mem_string c other) eqn:E; [|reflexivity].
  apply mem_string_In in E. contradiction.
Qed.

(** With distinct string ids the join pairs a metadata row with at most
    one record. *)
Lemma assemble_distinct_rows (df_meta : DataFrame) (fds : list dict) (i : nat) :
  column_index "track_id" (columns df_meta) = Some i ->
  Forall (fun row => is_str_or_null (key_at i row) = true) (rows df_meta) ->
  fds <> [] ->
  Forall (fun f => exists id, dict_lookup "id" f = Some (VStr id)) fds ->
  NoDup (map (fun f => cell f "id") fds) ->
  NoDup (map (with_suffix (columns (frame_of_dicts fds)) "_x") (columns df_meta)) ->
  NoDup (map (with_suffix (columns df_meta) "_y") (columns (frame_of_dicts fds))) ->
  exists df,
    assemble df_meta (map VDict fds) = Returns df /\
    List.length (rows df) = List.length (rows df_meta) /\
    columns df
    = map (with_suffix (columns (frame_of_dicts fds)) "_x") (columns df_meta)
      ++ map (with_suffix (columns df_meta) "_y") (columns (frame_of_dicts fds)).
Proof.
  intros Hi Hkeys Hne Hids Hnd Hl Hr.
  destruct (@assemble_runs df_meta fds i Hi Hkeys Hne Hids Hl Hr)
    as (j & Hj & Hrun).
  eexists. split; [exact Hrun|]. cbn [rows columns].
  split; [|reflexivity]. clear Hkeys Hrun.
  induction (rows df_meta) as [|lrow lrows IH]; [reflexivity|].
  simpl. rewrite length_app, IH. f_equal.
  unfold join_row. rewrite (@matches_of_frame fds j _ Hj).
  destruct (filter_distinct_keys (fun f => cell f "id") fds (key_at i lrow) Hnd)
    as [[-> _]|(x & -> & _)]; reflexivity.
Qed.

(** No metadata column is another metadata column with the suffix. *)
Lemma meta_labels_distinct (other : list string) :
  NoDup (map (with_suffix other "_x") META_COLUMNS).
Proof.
  unfold META_COLUMNS, with_suffix. simpl.
  destruct (mem_string "track_name" other),
           (mem_string "track_id" other),
           (mem_string "artists" other),
           (mem_string "album" other),
           (mem_string "popularity" other),
           (mem_string "duration_ms" other);
    repeat (constructor; [simpl; intuition discriminate|]); constructor.
Qed.

Lemma meta_keys_are_ids (meta : list dict) (ids : list value) :
  columns (frame_of_dicts meta) = META_COLUMNS ->
  ids = map (fun d => cell d "track_id") meta ->
  Forall (fun id => is_str_or_null id = true) ids ->
  Forall (fun row => is_str_or_null (key_at 1 row) = true)
         (rows (frame_of_dicts meta)).
Proof.
  intros Hcols -> Hids. unfold frame_of_dicts in *. simpl in *. rewrite Hcols.
  apply Forall_forall. intros row Hrow.
  apply in_map_iff in Hrow. destruct Hrow as (d & <- & Hd).
  rewrite Forall_forall in Hids. apply (Hids (cell d "track_id")).
  apply in_map_iff. exists d. auto.
Qed.

Section Example.

Variable S : Type.
Variable sp : Spotify S.

(** The run with features.  Take track ids that are strings or null,
    and a fetcher that returns one record per track, each with a string
    id, the ids pairwise distinct, no key of a record being a metadata
    column name with the suffix "_y" next to that name.  The table has
    one row per top track, the metadata columns that no record has a key
    for under their own names, and a column for every key of a record
    that is not a metadata column. *)
Theorem analyze_artist_with_features
    (artist_name market : string)
    (artist artist_id name top_tracks : value)
    (meta fds : list dict) (ids : list value)
    (s s1 s2 s3 : S) (t1 t2 t3 : list event) :
  search_artist sp artist_name s = (Returns artist, s1, t1) ->
  truthy artist = true ->
  py_getitem artist "id" = Returns artist_id ->
  py_getitem artist "name" = Returns name ->
  artist_top_tracks_in_market sp artist_id market s1 = (Returns top_tracks, s2, t2) ->
  truthy top_tracks = true ->
  tracks_meta_and_ids top_tracks = Returns (meta, ids) ->
  Forall (fun id => is_str_or_null id = true) ids ->
  safe_audio_features sp ids s2 = (Returns (Some (map VDict fds)), s3, t3) ->
  fds <> [] ->
  Forall (fun f => exists id, dict_lookup "id" f = Some (VStr id)) fds ->
  NoDup (map (fun f => cell f "id") fds) ->
  NoDup (map (with_suffix META_COLUMNS "_y") (columns (frame_of_dicts fds))) ->
  exists df,
    analyze_artist sp artist_name market s
    = (Returns (Some df), s3,
       t1 ++ found_artist name artist_id :: t2 ++ t3) /\
    List.length (rows df) = List.length meta /\
    (forall c, In c META_COLUMNS ->
               (forall f, In f fds -> ~ In c (dict_keys f)) ->
               In c (columns df)) /\
    (forall c f, In f fds -> In c (dict_keys f) -> ~ In c META_COLUMNS ->
                 In c (columns df)).
Proof.
  intros Hsearch Hartist Hid Hname Htop Htracks Hmeta Hstr Hfeats Hne Hids Hnd Hr.
  destruct (tracks_meta_and_ids_returns _ Hmeta) as (Hkeys & Hmids & Hmne).
  destruct (frame_of_meta (Hmne Htracks) Hkeys) as [Hcols Hrows].
  assert (Hi : column_index "track_id" (columns (frame_of_dicts meta)) = Some 1)
    by (rewrite Hcols; reflexivity).
  assert (Hl : NoDup (map (with_suffix (columns (frame_of_dicts fds)) "_x")
                          (columns (frame_of_dicts meta))))
    by (rewrite Hcols; apply meta_labels_distinct).
  rewrite <- Hcols in Hr.
  destruct (@assemble_distinct_rows (frame_of_dicts meta) fds 1 Hi
              (@meta_keys_are_ids meta ids Hcols Hmids Hstr) Hne Hids Hnd Hl Hr)
    as (df & Hdf & Hlen & Hdfcols).
  exists df. split; [|split; [congruence|split]].
  - unfold analyze_artist. unfold bind at 1. rewrite Hsearch, Hartist. simpl.
    unfold bind at 1. rewrite Hid. simpl.
    unfold bind at 1. rewrite Hname. simpl.
    unfold bind at 1. simpl.
    unfold bind at 1. rewrite Htop, Htracks. simpl.
    unfold bind at 1. rewrite Hmeta. simpl.
    unfold bind at 1. rewrite Hfeats.
    unfold bind, lift, ret. rewrite Hdf. simpl.
    rewrite !app_nil_r. reflexivity.
  - intros c Hc Hnone. rewrite Hdfcols, Hcols. apply in_or_app. left.
    apply in_map_iff. exists c. split; [|assumption].
    apply with_suffix_other. unfold frame_of_dicts. cbn [columns].
    rewrite In_fold_keys. intros [[]|(ks & Hks & Hck)].
    apply in_map_iff in Hks. destruct Hks as (f & <- & Hf).
    apply (Hnone f Hf Hck).
  - intros c f Hf Hc Hnot. rewrite Hdfcols, Hcols. apply in_or_app. right.
    apply in_map_iff. exists c. split; [apply with_suffix_other; assumption|].
    unfold frame_of_dicts. cbn [columns]. apply In_fold_keys. right.
    exists (dict_keys f). split; [apply in_map; assumption | assumption].
Qed.

Lemma main_without_danceability (df : DataFrame) (s s' : S) (t : list event) :
  analyze_artist sp "Arijit Singh" "IN" s = (Returns (Some df), s', t) ->
  mem_string "danceability" (columns df) = false ->
  main sp s
  = (Returns tt, s', t ++ [Print [PFrame (head df)]; NO_FEATURES_MESSAGE]) /\
  forall df', ~ In (FigShow df') (snd (main sp s)).
Proof.
  intros Hrun Hd.
  pose proof (analyze_artist_no_plot sp "Arijit Singh" "IN" s) as Hno.
  rewrite Hrun in Hno. simpl in Hno.
  assert (H : main sp s
              = (Returns tt, s',
                 t ++ [Print [PFrame (head df)]; NO_FEATURES_MESSAGE])).
  { unfold main, bind, emit. rewrite Hrun. simpl. rewrite Hd. reflexivity. }
  split; [assumption|]. rewrite H. simpl. intros df' Hin.
  apply in_app_or in Hin. destruct Hin as [Hin|[Hin|[Hin|[]]]];
    try discriminate.
  rewrite forallb_forall in Hno. specialize (Hno _ Hin). discriminate.
Qed.

(** What the entry point does with a table.  Without a "danceability"
    column it prints the preview and a message, shows no plot and ends
    normally.  With the five columns of the plot, and a popularity that is
    a number and not negative in every row, it prints the preview and
    shows the plot.  With "danceability" but without one of the other four
    columns, or with a null popularity in some row, it raises ValueError
    after the preview and shows nothing. *)
Theorem main_with_table (df : DataFrame) (s s' : S) (t : list event) :
  analyze_artist sp "Arijit Singh" "IN" s = (Returns (Some df), s', t) ->
  (mem_string "danceability" (columns df) = false ->
   main sp s
   = (Returns tt, s', t ++ [Print [PFrame (head df)]; NO_FEATURES_MESSAGE]) /\
   forall df', ~ In (FigShow df') (snd (main sp s))) /\
  (forallb (fun c => mem_string c (columns df)) PLOT_COLUMNS = true ->
   forallb is_size (column_cells "popularity" df) = true ->
   main sp s = (Returns tt, s', t ++ [Print [PFrame (head df)]; FigShow df])) /\
  (mem_string "danceability" (columns df) = true ->
   forallb (fun c => mem_string c (columns df)) PLOT_COLUMNS = false \/
   In VNone (column_cells "popularity" df) ->
   main sp s = (Raises ValueError, s', t ++ [Print [PFrame (head df)]])).
Proof.
  intros Hrun. split; [|split].
  - apply main_without_danceability. assumption.
  - intros Hall Hsizes.
    assert (Hd : mem_string "danceability" (columns df) = true).
    { simpl in Hall. apply andb_prop in Hall. destruct Hall as [_ Hall].
      apply andb_prop in Hall. tauto. }
    unfold main, bind, emit, scatter_and_show. rewrite Hrun.
    cbv beta iota. rewrite Hd, Hall, Hsizes. reflexivity.
  - intros Hd Hbad.
    assert (Hno : forallb (fun c => mem_string c (columns df)) PLOT_COLUMNS
                  && forallb is_size (column_cells "popularity" df) = false).
    { destruct Hbad as [Hmiss|Hnull]; [rewrite Hmiss; reflexivity|].
      apply andb_false_intro2.
      destruct (forallb is_size (column_cells "popularity" df)) eqn:E;
        [|reflexivity].
      rewrite forallb_forall in E. specialize (E VNone Hnull). discriminate. }
    unfold main, bind, emit, scatter_and_show, raise. rewrite Hrun.
    cbv beta iota. rewrite Hd, Hno. reflexivity.
Qed.

(** A failed feature fetch does not fail the run: when the fetcher
    returns the failure signal, the entry point prints the preview of the
    metadata table and the message about the missing features, shows no
    plot and ends normally, with exit status 0. *)
Theorem main_metadata_only
    (artist artist_id name top_tracks : value)
    (meta : list dict) (ids : list value)
    (s s1 s2 s3 : S) (t1 t2 t3 : list event) :
  search_artist sp "Arijit Singh" s = (Returns artist, s1, t1) ->
  truthy artist = true ->
  py_getitem artist "id" = Returns artist_id ->
  py_getitem artist "name" = Returns name ->
  artist_top_tracks_in_market sp artist_id "IN" s1 = (Returns top_tracks, s2, t2) ->
  truthy top_tracks = true ->
  tracks_meta_and_ids top_tracks = Returns (meta, ids) ->
  safe_audio_features sp ids s2 = (Returns None, s3, t3) ->
  fst (main sp s) = (Returns tt, s3) /\
  exit_status (fst (fst (main sp s))) = 0%Z /\
  (forall df, ~ In (FigShow df) (snd (main sp s))) /\
  exists t,
    snd (main sp s)
    = t ++ [Print [PFrame (head (frame_of_dicts meta))]; NO_FEATURES_MESSAGE].
Proof.
  intros Hsearch Hartist Hid Hname Htop Htracks Hmeta Hfeats.
  destruct (tracks_meta_and_ids_returns _ Hmeta) as (Hkeys & _ & Hne).
  destruct (frame_of_meta (Hne Htracks) Hkeys) as [Hcols _].
  assert (Hrun : exists t,
             analyze_artist sp "Arijit Singh" "IN" s
             = (Returns (Some (frame_of_dicts meta)), s3, t)).
  { unfold analyze_artist. unfold bind at 1. rewrite Hsearch, Hartist. simpl.
    unfold bind at 1. rewrite Hid. simpl.
    unfold bind at 1. rewrite Hname. simpl.
    unfold bind at 1. simpl.
    unfold bind at 1. rewrite Htop, Htracks. simpl.
    unfold bind at 1. rewrite Hmeta. simpl.
    unfold bind at 1. rewrite Hfeats. simpl. eexists. reflexivity. }
  destruct Hrun as [t Hrun].
  assert (Hd : mem_string "danceability" (columns (frame_of_dicts meta)) = false)
    by (rewrite Hcols; reflexivity).
  destruct (@main_without_danceability _ _ _ _ Hrun Hd) as [Hmain Hnoplot].
  split; [rewrite Hmain; reflexivity|].
  split; [rewrite Hmain; reflexivity|].
  split; [assumption|]. exists t. rewrite Hmain. reflexivity.
Qed.

End Example.

Lemma analyze_artist_with_features_witness :
  exists df,
    analyze_artist (double_service (honest (sample_ids 2))) "Arijit Singh" "IN" 0
    = (Returns (Some df), 1,
       [ApiSearch "artist:Arijit Singh" (Returns (search_hit sample_artist))]
       ++ found_artist (VStr "Arijit Singh") (VStr "a1")
       :: [ApiTopTracks (VStr "a1") "IN" (Returns (top_tracks_of (sample_ids 2)))]
       ++ [ApiAudioFeatures (sample_ids 2)
             (Returns (VList (map features_for (sample_ids 2))));
           Sleep 100]) /\
    List.length (rows df) = 2 /\
    In "danceability" (columns df).
Proof.
  destruct (@analyze_artist_with_features nat
              (double_service (honest (sample_ids 2)))
              "Arijit Singh" "IN" sample_artist (VStr "a1") (VStr "Arijit Singh")
              (VList (map sample_track (sample_ids 2)))
              (map sample_meta (sample_ids 2)) (map feature_dict (sample_ids 2))
              (sample_ids 2) 0 0 0 1
              [ApiSearch "artist:Arijit Singh" (Returns (search_hit sample_artist))]
              [ApiTopTracks (VStr "a1") "IN" (Returns (top_tracks_of (sample_ids 2)))]
              [ApiAudioFeatures (sample_ids 2)
                 (Returns (VList (map features_for (sample_ids 2))));
               Sleep 100])
    as (df & Hrun & Hlen & _ & Hcols); try reflexivity.
  - repeat (constructor; [reflexivity|]). constructor.
  - discriminate.
  - repeat (constructor; [eexists; reflexivity|]). constructor.
  - simpl. constructor; [intros [H|[]]; discriminate|].
    constructor; [intros []|constructor].
  - distinct_labels.
  - exists df. split; [exact Hrun|]. split; [exact Hlen|].
    apply (Hcols "danceability" (feature_dict (VStr "t0"))).
    + left. reflexivity.
    + simpl. auto.
    + simpl. intros H. repeat (destruct H as [H|H]; [discriminate|]). exact H.
Defined.

Lemma main_with_table_witness :
  let sv := double_service (honest (sample_ids 2)) in
  let t := snd (analyze_artist sv "Arijit Singh" "IN" 0) in
  exists df,
    main sv 0 = (Returns tt, 1, t ++ [Print [PFrame (head df)]; FigShow df]).
Proof.
  intros sv t.
  set (df := match fst (fst (analyze_artist sv "Arijit Singh" "IN" 0)) with
             | Returns (Some d) => d
             | _ => mkDataFrame [] []
             end).
  assert (Hrun : analyze_artist sv "Arijit Singh" "IN" 0
                 = (Returns (Some df), 1, t)) by (vm_compute; reflexivity).
  exists df. apply (proj1 (proj2 (@main_with_table nat sv df 0 1 t Hrun)));
    vm_compute; reflexivity.
Defined.

Lemma main_metadata_only_witness :
  fst (main (double_service (failing (sample_ids 2) 0 RATE_LIMITED)) 0)
  = (Returns tt, 1).
Proof.
  refine (proj1 (@main_metadata_only nat
           (double_service (failing (sample_ids 2) 0 RATE_LIMITED))
           sample_artist (VStr "a1") (VStr "Arijit Singh")
           (VList (map sample_track (sample_ids 2)))
           (map sample_meta (sample_ids 2)) (sample_ids 2) 0 0 0 1
           _ _ _ _ _ _ _ _ _ _ _));
    reflexivity.
Defined.

(** ** More on the playlist paginator *)

Section PaginatorMore.

Variable S : Type.
Variable sp : Spotify S.

(** The loop has no bound of its own.  [Inv] describes the pages the
    service keeps handing out. *)
Variable Inv : value -> Prop.

Lemma follow_next_never_ends :
  (forall page, Inv page -> has_more page) ->
  (forall page s, Inv page ->
                  exists page' s', sp_next sp page s = (Returns page', s') /\
                                   Inv page') ->
  forall rounds page acc s,
    Inv page ->
    fst (fst (follow_next sp rounds page (VList acc) s)) = Returns None.
Proof.
  intros Hmore Hnext. induction rounds as [|rounds IH]; intros page acc s Hpage.
  - reflexivity.
  - destruct (Hmore page Hpage) as (nxt & its & Hn & Htruthy & _).
    destruct (Hnext page s Hpage) as (page' & s1 & Hcall & Hpage').
    destruct (Hmore page' Hpage') as (_ & its' & _ & _ & Hitems').
    specialize (IH page' (acc ++ its') s1 Hpage').
    change (follow_next sp (Datatypes.S rounds) page (VList acc) s)
      with ((nxt0 <- lift (py_get page "next" VNone) ;;
             if truthy nxt0 then
               results' <- request (sp_next sp page) (ApiNext page) ;;
               tracks' <- lift (extend_with_items (VList acc) results') ;;
               follow_next sp rounds results' tracks'
             else ret (Some (VList acc))) s).
    unfold bind at 1. unfold lift at 1. rewrite Hn, Htruthy.
    unfold bind at 1. unfold request at 1. rewrite Hcall.
    unfold bind at 1. unfold lift at 1. unfold extend_with_items.
    rewrite Hitems'. simpl obind. cbv beta iota.
    destruct (follow_next sp rounds page' (VList (acc ++ its')) s1)
      as [[r s2] t2].
    simpl in *. assumption.
Qed.

(** As long as every page the service hands out carries a cursor, the
    paginator does not return: whatever the number of rounds granted to
    its loop, the rounds run out. *)
Theorem get_playlist_tracks_never_ends
    (playlist_id : string) (first : value) (s s1 : S) (rounds : nat) :
  (forall page, Inv page -> has_more page) ->
  (forall page s, Inv page ->
                  exists page' s', sp_next sp page s = (Returns page', s') /\
                                   Inv page') ->
  sp_playlist_items sp playlist_id s = (Returns first, s1) ->
  Inv first ->
  fst (fst (get_playlist_tracks sp rounds playlist_id s)) = Returns None.
Proof.
  intros Hmore Hnext Hcall Hfirst.
  destruct (Hmore first Hfirst) as (nxt & its & _ & _ & Hitems).
  pose proof (follow_next_never_ends Hmore Hnext rounds its s1 Hfirst) as H.
  unfold get_playlist_tracks.
  unfold bind at 1. unfold request at 1. rewrite Hcall.
  unfold bind at 1. unfold lift at 1. rewrite Hitems. cbv beta iota.
  destruct (follow_next sp rounds first (VList its) s1) as [[r s2] t2].
  simpl in *. assumption.
Qed.

End PaginatorMore.

Section PaginatorErrors.

Variable S : Type.
Variable sp : Spotify S.

(** An exception raised while fetching a next page ends the paginator
    with that exception: the items collected so far are not returned. *)
Theorem get_playlist_tracks_next_error
    (playlist_id : string) (first nxt : value) (its : list value) (e : exn)
    (s s1 s2 : S) (rounds : nat) :
  sp_playlist_items sp playlist_id s = (Returns first, s1) ->
  py_getitem first "items" = Returns (VList its) ->
  py_get first "next" VNone = Returns nxt ->
  truthy nxt = true ->
  sp_next sp first s1 = (Raises e, s2) ->
  get_playlist_tracks sp (Datatypes.S rounds) playlist_id s
  = (Raises e, s2,
     [ApiPlaylistItems playlist_id (Returns first); ApiNext first (Raises e)]).
Proof.
  intros Hcall Hitems Hnext Htruthy Herr.
  unfold get_playlist_tracks.
  unfold bind at 1. unfold request at 1. rewrite Hcall.
  unfold bind at 1. unfold lift at 1. rewrite Hitems. cbv beta iota.
  change (follow_next sp (Datatypes.S rounds) first (VList its) s1)
    with ((nxt0 <- lift (py_get first "next" VNone) ;;
           if truthy nxt0 then
             results' <- request (sp_next sp first) (ApiNext first) ;;
             tracks' <- lift (extend_with_items (VList its) results') ;;
             follow_next sp rounds results' tracks'
           else ret (Some (VList its))) s1).
  unfold bind at 1. unfold lift at 1. rewrite Hnext, Htruthy.
  unfold bind at 1. unfold request at 1. rewrite Herr. reflexivity.
Qed.

(** A first page without an "items" entry makes the paginator raise
    KeyError after its one request. *)
Theorem get_playlist_tracks_no_items
    (playlist_id : string) (d : dict) (s s1 : S) (rounds : nat) :
  sp_playlist_items sp playlist_id s = (Returns (VDict d), s1) ->
  dict_lookup "items" d = None ->
  get_playlist_tracks sp rounds playlist_id s
  = (Raises (KeyError "items"), s1,
     [ApiPlaylistItems playlist_id (Returns (VDict d))]).
Proof.
  intros Hcall Hnone.
  unfold get_playlist_tracks, bind, request, lift. rewrite Hcall.
  simpl. rewrite Hnone. reflexivity.
Qed.

End PaginatorErrors.

Lemma get_playlist_tracks_never_ends_witness :
  fst (fst (get_playlist_tracks (double_service looping) 1000 "playlist" 0))
  = Returns None.
Proof.
  apply (@get_playlist_tracks_never_ends nat (double_service looping)
           (fun page => page = LOOP_PAGE) "playlist" LOOP_PAGE 0 0 1000).
  - intros page ->. exists (VStr "again"), [VStr "a"].
    split; [reflexivity|]. split; reflexivity.
  - intros page s ->. exists LOOP_PAGE, s. split; reflexivity.
  - reflexivity.
  - reflexivity.
Defined.

Lemma get_playlist_tracks_next_error_witness :
  get_playlist_tracks (with_errors None None (Some RATE_LIMITED) three_pages)
    5 "playlist" 0
  = (Raises RATE_LIMITED, 0,
     [ApiPlaylistItems "playlist" (Returns PAGE0);
      ApiNext PAGE0 (Raises RATE_LIMITED)]).
Proof.
  apply (@get_playlist_tracks_next_error nat
           (with_errors None None (Some RATE_LIMITED) three_pages)
           "playlist" PAGE0 (VStr "c1") [VStr "a"; VStr "b"] RATE_LIMITED
           0 0 0 4); reflexivity.
Defined.

Lemma get_playlist_tracks_no_items_witness :
  get_playlist_tracks (double_service bare_playlist) 3 "playlist" 0
  = (Raises (KeyError "items"), 0,
     [ApiPlaylistItems "playlist" (Returns (VDict [("next", VNone)]))]).
Proof.
  apply (@get_playlist_tracks_no_items nat (double_service bare_playlist)
           "playlist" [("next", VNone)] 0 0 3); reflexivity.
Defined.
